(** * Text Paraphraser API: a shallow embedding of [app/main.py] and of the
    [TextValidator] class of [test.py], with the properties of the service
    lifecycle, the request handler, the health endpoint and the character
    filter.

    Python [str] values are sequences of Unicode code points; the source has
    Cyrillic letters and typographic punctuation in its patterns, so a
    character is a code point in [Z] and a string a list of them. *)

From Stdlib Require Import ZArith List Bool Lia String Ascii Floats.
Import ListNotations.

Local Open Scope Z_scope.

(** ** Python strings *)

Definition char := Z.
Definition str := list char.

(** An ASCII literal of the source as a [str]. *)
Definition lit (s : string) : str :=
  map (fun a => Z.of_N (N_of_ascii a)) (list_ascii_of_string s).

(** [Py_UNICODE_ISSPACE]: the whitespace test shared by [str.strip()] and by
    the [\s] category of [re] on [str] patterns. *)
Definition Py_UNICODE_ISSPACE (c : char) : bool :=
  ((9 <=? c) && (c <=? 13))            (* \t \n \v \f \r *)
  || ((28 <=? c) && (c <=? 32))        (* FS GS RS US and the space *)
  || (c =? 133) || (c =? 160)          (* NEL, no-break space *)
  || (c =? 5760)
  || ((8192 <=? c) && (c <=? 8202))
  || (c =? 8232) || (c =? 8233) || (c =? 8239) || (c =? 8287)
  || (c =? 12288).

(** [s.lstrip()], [s.rstrip()] and [s.strip()] without arguments. *)
Fixpoint lstrip (s : str) : str :=
  match s with
  | [] => []
  | c :: rest => if Py_UNICODE_ISSPACE c then lstrip rest else s
  end.

Definition rstrip (s : str) : str := rev (lstrip (rev s)).

Definition strip (s : str) : str := rstrip (lstrip s).

(** Truth value of a string: [not s] holds for the empty string only. *)
Definition truthy (s : str) : bool :=
  match s with [] => false | _ :: _ => true end.

(** [needle in haystack] on strings. *)
Fixpoint starts_with (needle haystack : str) : bool :=
  match needle, haystack with
  | [], _ => true
  | _ :: _, [] => false
  | a :: n', b :: h' => (a =? b) && starts_with n' h'
  end.

Fixpoint contains (needle haystack : str) : bool :=
  starts_with needle haystack
  || match haystack with
     | [] => false
     | _ :: h' => contains needle h'
     end.

(** ** TextValidator (test.py) *)

Module TextValidator.

(** The [re] patterns of the class are all one bracket expression; an item
    of a bracket expression is a literal, a range or the category [\s]. *)
Inductive class_item : Type :=
| Lit (c : char)
| Range (lo hi : char)
| CategorySpace.

Definition pattern := list class_item.

Definition item_matches (c : char) (i : class_item) : bool :=
  match i with
  | Lit x => c =? x
  | Range lo hi => (lo <=? c) && (c <=? hi)
  | CategorySpace => Py_UNICODE_ISSPACE c
  end.

(** [re.match(pattern, char)] for a one-character subject, as a truth
    value. *)
Definition re_match (p : pattern) (c : char) : bool :=
  existsb (item_matches c) p.

Definition ALLOWED_PATTERNS : list pattern :=
  [ (* [а-яА-ЯёЁ] *)
    [Range 1072 1103; Range 1040 1071; Lit 1105; Lit 1025];
    (* [a-zA-Z] *)
    [Range 97 122; Range 65 90];
    (* [0-9] *)
    [Range 48 57];
    (* [\s] *)
    [CategorySpace];
    (* [.,!?;:\-—–"\'«»„"„] *)
    [Lit 46; Lit 44; Lit 33; Lit 63; Lit 59; Lit 58; Lit 45; Lit 8212;
     Lit 8211; Lit 34; Lit 39; Lit 171; Lit 187; Lit 8222; Lit 34;
     Lit 8222] ].

Definition FORBIDDEN_CHARS : list char :=
  [0; 1; 2; 3; 4; 5; 6; 7; 8; 11; 12; 14].

Definition forbidden (c : char) : bool :=
  existsb (Z.eqb c) FORBIDDEN_CHARS.

(** The loop of [_is_valid_char] over a list of patterns. *)
Fixpoint any_pattern_matches (ps : list pattern) (c : char) : bool :=
  match ps with
  | [] => false
  | p :: rest => if re_match p c then true else any_pattern_matches rest c
  end.

Definition _is_valid_char (c : char) : bool :=
  any_pattern_matches ALLOWED_PATTERNS c.

(** The second loop of [is_valid_text], which returns at the first
    character that fails the test. *)
Fixpoint all_chars_valid (text : str) : bool :=
  match text with
  | [] => true
  | c :: rest => if negb (_is_valid_char c) then false else all_chars_valid rest
  end.

Definition is_valid_text (text : str) : bool :=
  if negb (truthy text) then false
  else if existsb forbidden text then false
  else all_chars_valid text.

Definition filter_text (text : str) : str :=
  filter _is_valid_char text.

End TextValidator.


(** ** The model capability ([transformers], [torch])

    The pretrained model and its tokenizer are external. A handle is the
    record of the operations the service calls on it; each operation either
    raises an [Exception] or returns a value. No property below depends on
    what an operation returns, only on whether it raises. *)

(** An exception, as far as the service looks at it: [str(e)]. *)
Record Exception : Type := { exc_str : str }.

Definition Tokens := list Z.
Definition BatchEncoding := list Tokens.

Record T5Tokenizer : Type := {
  (* tokenizer(text, return_tensors="pt", padding=True, truncation=True,
               max_length=...) *)
  tokenizer_call : str -> Z -> Exception + BatchEncoding;
  (* the .to(device) of the encoding it returned *)
  encoding_to : BatchEncoding -> str -> Exception + BatchEncoding;
  (* tokenizer.decode(output, skip_special_tokens=True) *)
  decode : Tokens -> Exception + str
}.

Record T5ForConditionalGeneration : Type := {
  model_to : str -> Exception + unit;
  model_eval : Exception + unit;
  (* model.generate of the unpacked encoding with num_return_sequences,
     num_beams, temperature, max_length and do_sample *)
  generate : BatchEncoding -> Z -> Z -> float -> Z -> bool
             -> Exception + list Tokens
}.

(** What the two [from_pretrained] calls answer at each attempt of the
    loader (attempts are numbered from 0, as [range] does). *)
Record Hub : Type := {
  T5Tokenizer_from_pretrained : nat -> Exception + T5Tokenizer;
  T5ForConditionalGeneration_from_pretrained :
    nat -> Exception + T5ForConditionalGeneration
}.

(** ** The process: module globals and the calls made so far *)

Inductive Event : Type :=
| FetchTokenizer (attempt : nat)
| FetchModel (attempt : nat)
| ModelTo (d : str)
| ModelEval
| Sleep (secs : Z)
| Tokenize (text : str) (max_length : Z)
| EncodingTo (d : str)
| Generate (num_return_sequences num_beams : Z) (temperature : float)
           (max_length : Z) (do_sample : bool)
| Decode (output : Tokens).

Record Process : Type := {
  model : option T5ForConditionalGeneration;
  tokenizer : option T5Tokenizer;
  device : str;
  cuda_is_available : bool;         (* torch.cuda.is_available() *)
  trace : list Event                (* oldest first *)
}.

(** State of the process once [app/main.py] is imported. *)
Definition import_main (cuda : bool) : Process :=
  {| model := None;
     tokenizer := None;
     device := if cuda then lit "cuda" else lit "cpu";
     cuda_is_available := cuda;
     trace := [] |}.

(** Computations on the process that may raise an [E]. A raise keeps the
    state reached so far: assignments to globals are not undone. *)
Definition M (E A : Type) : Type := Process -> Process * (E + A).

Definition ret {E A} (a : A) : M E A := fun st => (st, inr a).

Definition raise {E A} (e : E) : M E A := fun st => (st, inl e).

Definition bind {E A B} (c : M E A) (k : A -> M E B) : M E B :=
  fun st =>
    match c st with
    | (st1, inl e) => (st1, inl e)
    | (st1, inr a) => k a st1
    end.

Declare Scope py_scope.
Delimit Scope py_scope with py.
Notation "x <- c ;; k" := (bind c (fun x => k))
  (at level 61, c at next level, right associativity) : py_scope.
Notation "c ;; k" := (bind c (fun _ => k))
  (at level 61, right associativity) : py_scope.
Local Open Scope py_scope.

Definition state_after {E A} (c : M E A) (st : Process) : Process := fst (c st).
Definition result_of {E A} (c : M E A) (st : Process) : E + A := snd (c st).

Definition log (ev : Event) (st : Process) : Process :=
  {| model := model st; tokenizer := tokenizer st; device := device st;
     cuda_is_available := cuda_is_available st;
     trace := trace st ++ [ev] |}.

(** A call into the capability: it is recorded, and raises or returns. *)
Definition call {A} (ev : Event) (r : Exception + A) : M Exception A :=
  fun st => (log ev st, r).

Definition set_tokenizer (t : T5Tokenizer) : M Exception unit :=
  fun st =>
    ({| model := model st; tokenizer := Some t; device := device st;
        cuda_is_available := cuda_is_available st; trace := trace st |},
     inr tt).

Definition set_model (m : T5ForConditionalGeneration) : M Exception unit :=
  fun st =>
    ({| model := Some m; tokenizer := tokenizer st; device := device st;
        cuda_is_available := cuda_is_available st; trace := trace st |},
     inr tt).

Definition get_device {E} : M E str := fun st => (st, inr (device st)).

Definition time_sleep (secs : Z) : M Exception unit :=
  fun st => (log (Sleep secs) st, inr tt).

Definition is_None {A} (o : option A) : bool :=
  match o with None => true | Some _ => false end.

(** ** load_model (app/main.py)

    The [print] calls of the loader are left out; they touch neither the
    globals nor the capability. *)

(** The body of the [try]. *)
Definition try_load (hub : Hub) (attempt : nat) : M Exception unit :=
  t <- call (FetchTokenizer attempt) (T5Tokenizer_from_pretrained hub attempt) ;;
  set_tokenizer t ;;
  m <- call (FetchModel attempt)
            (T5ForConditionalGeneration_from_pretrained hub attempt) ;;
  set_model m ;;
  d <- get_device ;;
  call (ModelTo d) (model_to m d) ;;
  call ModelEval (model_eval m).

(** The [for attempt in range(max_retries)] loop with its handler;
    [retry_delay] is carried from one iteration to the next. *)
Fixpoint load_attempts (hub : Hub) (max_retries : Z) (attempts : list nat)
    (retry_delay : Z) : M Exception unit :=
  match attempts with
  | [] => ret tt
  | attempt :: rest =>
      fun st =>
        match try_load hub attempt st with
        | (st1, inr _) => (st1, inr tt)
        | (st1, inl e) =>
            if Z.of_nat attempt <? max_retries - 1
            then (time_sleep retry_delay ;;
                  load_attempts hub max_retries rest (retry_delay * 2)) st1
            else (st1, inl e)
        end
  end.

Definition load_model (hub : Hub) : M Exception unit :=
  fun st =>
    if is_None (model st) || is_None (tokenizer st) then
      let max_retries := 3 in
      let retry_delay := 5 in
      load_attempts hub max_retries (seq 0 (Z.to_nat max_retries))
        retry_delay st
    else (st, inr tt).

Definition startup_event (hub : Hub) : M Exception unit := load_model hub.

(** ** Request and response models (pydantic) *)

Record ParaphraseRequest : Type := {
  text : str;
  num_return_sequences : Z;
  num_beams : Z;
  temperature : float
}.

(** [ParaphraseRequest(text=..., ...)]: the three optional fields have
    defaults and the class declares no validator and no field constraint. *)
Definition ParaphraseRequest_init (text : str)
    (num_return_sequences num_beams : option Z) (temperature : option float)
    : ParaphraseRequest :=
  {| text := text;
     num_return_sequences :=
       match num_return_sequences with Some n => n | None => 1 end;
     num_beams := match num_beams with Some n => n | None => 5 end;
     temperature :=
       match temperature with Some x => x | None => 1.0%float end |}.

Module ParaphraseResponse.
Record t : Type := {
  original_text : str;
  paraphrases : list str;
  device : str
}.
End ParaphraseResponse.

Module Health.
Record t : Type := {
  status : str;
  model_loaded : bool;
  device : str;
  cuda_available : bool
}.
End Health.

Record HTTPException : Type := { status_code : Z; detail : str }.

(** Status of the HTTP response for what a handler did: a returned value is
    answered with 200, an [HTTPException] with its own [status_code]. *)
Definition http_status {A} (r : HTTPException + A) : Z :=
  match r with
  | inl e => status_code e
  | inr _ => 200
  end.

(** ** paraphrase (app/main.py) *)

(** The list comprehension over [outputs]. *)
Fixpoint decode_all (t : T5Tokenizer) (outputs : list Tokens)
    : M Exception (list str) :=
  match outputs with
  | [] => ret []
  | output :: rest =>
      p <- call (Decode output) (decode t output) ;;
      ps <- decode_all t rest ;;
      ret (p :: ps)
  end.

(** The body of the [try]; [m] and [t] are the globals [model] and
    [tokenizer], which nothing assigns between the guard and their uses.
    [torch.no_grad()] only switches gradient tracking off around the
    generation. *)
Definition generation (m : T5ForConditionalGeneration) (t : T5Tokenizer)
    (request : ParaphraseRequest) : M Exception ParaphraseResponse.t :=
  enc <- call (Tokenize (text request) 256)
              (tokenizer_call t (text request) 256) ;;
  d <- get_device ;;
  input_ids <- call (EncodingTo d) (encoding_to t enc d) ;;
  outputs <- call (Generate (num_return_sequences request) (num_beams request)
                            (temperature request) 256 true)
                  (generate m input_ids (num_return_sequences request)
                            (num_beams request) (temperature request) 256 true) ;;
  paraphrases <- decode_all t outputs ;;
  d' <- get_device ;;
  ret {| ParaphraseResponse.original_text := text request;
         ParaphraseResponse.paraphrases := paraphrases;
         ParaphraseResponse.device := d' |}.

Definition paraphrase (request : ParaphraseRequest)
    : M HTTPException ParaphraseResponse.t :=
  fun st =>
    if negb (truthy (strip (text request))) then
      raise {| status_code := 400; detail := lit "Text cannot be empty" |} st
    else
      match model st, tokenizer st with
      | Some m, Some t =>
          match generation m t request st with
          | (st1, inr response) => (st1, inr response)
          | (st1, inl e) =>
              raise {| status_code := 500;
                       detail := lit "Error during paraphrasing: " ++ exc_str e |}
                    st1
          end
      | _, _ =>
          (* model is None or tokenizer is None *)
          raise {| status_code := 503; detail := lit "Model not loaded" |} st
      end.

(** ** health (app/main.py) *)

Definition health : M HTTPException Health.t :=
  fun st =>
    (st,
     inr {| Health.status := lit "healthy";
            Health.model_loaded := negb (is_None (model st));
            Health.device := device st;
            Health.cuda_available := cuda_is_available st |}).

(** ** Reading a trace *)

Fixpoint sleeps (tr : list Event) : list Z :=
  match tr with
  | [] => []
  | Sleep secs :: rest => secs :: sleeps rest
  | _ :: rest => sleeps rest
  end.

(** Every attempt starts with the tokenizer fetch. *)
Fixpoint attempts_made (tr : list Event) : nat :=
  match tr with
  | [] => O
  | FetchTokenizer _ :: rest => S (attempts_made rest)
  | _ :: rest => attempts_made rest
  end.

(** What attempt number [i] of the loader does, read off the hub: the first
    of its four calls that raises, if any. *)
Definition attempt_outcome (hub : Hub) (d : str) (i : nat) : Exception + unit :=
  match T5Tokenizer_from_pretrained hub i with
  | inl e => inl e
  | inr _ =>
      match T5ForConditionalGeneration_from_pretrained hub i with
      | inl e => inl e
      | inr m =>
          match model_to m d with
          | inl e => inl e
          | inr _ => model_eval m
          end
      end
  end.

(** The calls attempt number [i] of the loader makes, read off the hub: the
    tokenizer fetch, then, as long as nothing raised, the weights fetch, the
    move to the device and the switch to evaluation mode. *)
Definition attempt_events (hub : Hub) (d : str) (i : nat) : list Event :=
  FetchTokenizer i
  :: match T5Tokenizer_from_pretrained hub i with
     | inl _ => []
     | inr _ =>
         FetchModel i
         :: match T5ForConditionalGeneration_from_pretrained hub i with
            | inl _ => []
            | inr m =>
                ModelTo d
                :: match model_to m d with
                   | inl _ => []
                   | inr _ => [ModelEval]
                   end
            end
     end.

(** The states the loader goes through when its attempts fail: after each
    attempt and after each sleep. *)
Definition after_attempt_0 (hub : Hub) (st : Process) : Process :=
  state_after (try_load hub 0) st.
Definition after_sleep_0 (hub : Hub) (st : Process) : Process :=
  log (Sleep 5) (after_attempt_0 hub st).
Definition after_attempt_1 (hub : Hub) (st : Process) : Process :=
  state_after (try_load hub 1) (after_sleep_0 hub st).
Definition after_sleep_1 (hub : Hub) (st : Process) : Process :=
  log (Sleep 10) (after_attempt_1 hub st).
Definition after_attempt_2 (hub : Hub) (st : Process) : Process :=
  state_after (try_load hub 2) (after_sleep_1 hub st).

Definition fails {A} (r : Exception + A) : Prop := exists e, r = inl e.

(** A failure inside the [try] of [paraphrase], stage by stage: the encoding,
    its move to the device, the generation, or the decoding of one output
    after the outputs before it were decoded. *)
Inductive generation_raises (m : T5ForConditionalGeneration) (t : T5Tokenizer)
    (request : ParaphraseRequest) (d : str) : Exception -> Prop :=
| raises_in_encode e :
    tokenizer_call t (text request) 256 = inl e ->
    generation_raises m t request d e
| raises_in_to enc e :
    tokenizer_call t (text request) 256 = inr enc ->
    encoding_to t enc d = inl e ->
    generation_raises m t request d e
| raises_in_generate enc input_ids e :
    tokenizer_call t (text request) 256 = inr enc ->
    encoding_to t enc d = inr input_ids ->
    generate m input_ids (num_return_sequences request) (num_beams request)
             (temperature request) 256 true = inl e ->
    generation_raises m t request d e
| raises_in_decode enc input_ids outputs decoded output rest e :
    tokenizer_call t (text request) 256 = inr enc ->
    encoding_to t enc d = inr input_ids ->
    generate m input_ids (num_return_sequences request) (num_beams request)
             (temperature request) 256 true = inr outputs ->
    outputs = decoded ++ output :: rest ->
    Forall (fun o => ~ fails (decode t o)) decoded ->
    decode t output = inl e ->
    generation_raises m t request d e.

(** The texts handed to the tokenizer, in order. *)
Fixpoint tokenized (tr : list Event) : list str :=
  match tr with
  | [] => []
  | Tokenize s _ :: rest => s :: tokenized rest
  | _ :: rest => tokenized rest
  end.

(** The module globals of two states agree (their traces may differ). *)
Definition same_globals (st st' : Process) : Prop :=
  model st' = model st
  /\ tokenizer st' = tokenizer st
  /\ device st' = device st
  /\ cuda_is_available st' = cuda_is_available st.

(** ** Sample capabilities and hubs *)

Definition connection_error : Exception :=
  {| exc_str := lit "Connection reset by peer" |}.

Definition out_of_memory : Exception :=
  {| exc_str := lit "CUDA out of memory" |}.

(** A tokenizer whose tokens are the code points of the text. *)
Definition plain_tokenizer : T5Tokenizer :=
  {| tokenizer_call := fun text max_length =>
       inr [firstn (Z.to_nat max_length) text];
     encoding_to := fun enc _ => inr enc;
     decode := fun output => inr output |}.

(** A model that returns each input [num_return_sequences] times. *)
Definition copy_model : T5ForConditionalGeneration :=
  {| model_to := fun _ => inr tt;
     model_eval := inr tt;
     generate := fun input_ids n _ _ _ _ =>
       inr (flat_map (fun s => repeat s (Z.to_nat n)) input_ids) |}.

(** A model that loads and then fails in every generation. *)
Definition broken_model : T5ForConditionalGeneration :=
  {| model_to := fun _ => inr tt;
     model_eval := inr tt;
     generate := fun _ _ _ _ _ _ => inl out_of_memory |}.

(** The hub is unreachable for the first two attempts. *)
Definition hub_flaky : Hub :=
  {| T5Tokenizer_from_pretrained := fun i =>
       if (i <? 2)%nat then inl connection_error else inr plain_tokenizer;
     T5ForConditionalGeneration_from_pretrained := fun _ => inr copy_model |}.

(** The tokenizer files are served, the model weights never are. *)
Definition hub_without_weights : Hub :=
  {| T5Tokenizer_from_pretrained := fun _ => inr plain_tokenizer;
     T5ForConditionalGeneration_from_pretrained := fun _ =>
       inl connection_error |}.

Definition hub_down : Hub :=
  {| T5Tokenizer_from_pretrained := fun _ => inl connection_error;
     T5ForConditionalGeneration_from_pretrained := fun _ =>
       inl connection_error |}.

(** A tokenizer that cannot decode the empty output. *)
Definition strict_tokenizer : T5Tokenizer :=
  {| tokenizer_call := fun text max_length =>
       inr [firstn (Z.to_nat max_length) text; []];
     encoding_to := fun enc _ => inr enc;
     decode := fun output =>
       match output with
       | [] => inl {| exc_str := lit "empty sequence" |}
       | _ => inr output
       end |}.

(** A model whose weights are fetched but which cannot be moved to the
    device. *)
Definition unmovable_model : T5ForConditionalGeneration :=
  {| model_to := fun _ => inl out_of_memory;
     model_eval := inr tt;
     generate := fun input_ids n _ _ _ _ =>
       inr (flat_map (fun s => repeat s (Z.to_nat n)) input_ids) |}.

Definition hub_unmovable : Hub :=
  {| T5Tokenizer_from_pretrained := fun _ => inr plain_tokenizer;
     T5ForConditionalGeneration_from_pretrained := fun _ =>
       inr unmovable_model |}.



(** A model that generates as [copy_model] does when asked for beam width
    [beams] and temperature [temp], and raises for any other setting. *)
Definition tuned_model (beams : Z) (temp : float) : T5ForConditionalGeneration :=
  {| model_to := fun _ => inr tt;
     model_eval := inr tt;
     generate := fun input_ids n b x _ _ =>
       if (b =? beams) && PrimFloat.eqb x temp
       then inr (flat_map (fun s => repeat s (Z.to_nat n)) input_ids)
       else inl out_of_memory |}.

Definition loaded (m : T5ForConditionalGeneration) (t : T5Tokenizer) : Process :=
  {| model := Some m; tokenizer := Some t; device := lit "cpu";
     cuda_is_available := false; trace := [] |}.

Definition request_of (s : str) : ParaphraseRequest :=
  ParaphraseRequest_init s None None None.

(** The [generate] calls in a trace. *)
Fixpoint generate_calls (tr : list Event) : list Event :=
  match tr with
  | [] => []
  | Generate n b x l s :: rest => Generate n b x l s :: generate_calls rest
  | _ :: rest => generate_calls rest
  end.

(** The outputs handed to [tokenizer.decode], in order. *)
Fixpoint decoded_outputs (tr : list Event) : list Tokens :=
  match tr with
  | [] => []
  | Decode o :: rest => o :: decoded_outputs rest
  | _ :: rest => decoded_outputs rest
  end.

(** The time slept in a trace, all sleeps added up. *)
Definition total_sleep (tr : list Event) : Z := fold_right Z.add 0 (sleeps tr).

(** * Properties *)

(** ** TextValidator *)

Section Validator.

Import TextValidator.

Lemma any_pattern_matches_existsb (ps : list pattern) (c : char) :
  any_pattern_matches ps c = existsb (fun p => re_match p c) ps.
Proof.
  induction ps as [|p ps IH]; simpl; [reflexivity|].
  rewrite IH. destruct (re_match p c); reflexivity.
Qed.

Lemma all_chars_valid_forallb (s : str) :
  all_chars_valid s = forallb _is_valid_char s.
Proof.
  induction s as [|c s IH]; simpl; [reflexivity|].
  rewrite IH. destruct (_is_valid_char c); reflexivity.
Qed.

(** Whatever [filter_text] keeps passes the per-character test. *)
Lemma filter_text_all_chars_valid (s : str) :
  all_chars_valid (filter_text s) = true.
Proof.
  rewrite all_chars_valid_forallb. apply forallb_forall.
  intros c Hc. apply filter_In in Hc. tauto.
Qed.

(** The forbidden characters that the per-character test accepts are the
    vertical tab and the form feed, which [\s] matches. *)
Lemma forbidden_and_valid (c : char) :
  forbidden c && _is_valid_char c = (c =? 11) || (c =? 12).
Proof.
  unfold forbidden, FORBIDDEN_CHARS, existsb.
  repeat match goal with
         | |- context [Z.eqb c ?k] =>
             destruct (Z.eqb_spec c k) as [->|?]; [vm_compute; reflexivity|]
         end.
  reflexivity.
Qed.

Lemma existsb_forbidden_filter_text (s : str) :
  existsb forbidden (filter_text s)
  = existsb (fun c => (c =? 11) || (c =? 12)) s.
Proof.
  unfold filter_text.
  induction s as [|c s IH]; simpl; [reflexivity|].
  rewrite <- IH, <- forbidden_and_valid.
  destruct (_is_valid_char c); simpl.
  - rewrite andb_true_r. reflexivity.
  - rewrite andb_false_r. reflexivity.
Qed.

(** When the filtered text is not empty, it is valid exactly when the
    input has no vertical tab and no form feed. *)
Lemma is_valid_filter_text (s : str) :
  filter_text s <> [] ->
  is_valid_text (filter_text s)
  = negb (existsb (fun c => (c =? 11) || (c =? 12)) s).
Proof.
  intros Hne. unfold is_valid_text.
  rewrite existsb_forbidden_filter_text, filter_text_all_chars_valid.
  destruct (filter_text s) as [|c r]; [congruence|].
  simpl.
  match goal with |- context [existsb ?f s] => destruct (existsb f s) end;
    reflexivity.
Qed.

(** C3, on the code: for the one-character text U+000B (vertical tab),
    [filter_text] keeps the character, so the result is not empty, and
    [is_valid_text] rejects that result because U+000B is in
    [FORBIDDEN_CHARS]. *)
Theorem filter_text_keeps_forbidden_vertical_tab :
  filter_text [11] = [11]
  /\ filter_text [11] <> []
  /\ is_valid_text (filter_text [11]) = false.
Proof.
  split; [reflexivity | split; [discriminate | reflexivity]].
Qed.

(** C9: [filter_text] is idempotent: filtering a filtered text changes
    nothing. *)
Theorem filter_text_idempotent (s : str) :
  filter_text (filter_text s) = filter_text s.
Proof.
  unfold filter_text.
  induction s as [|c s IH]; simpl; [reflexivity|].
  destruct (_is_valid_char c) eqn:Hc; simpl.
  - rewrite Hc, IH. reflexivity.
  - exact IH.
Qed.

End Validator.

(** ** The loader *)

Lemma sleeps_app (a b : list Event) : sleeps (a ++ b) = sleeps a ++ sleeps b.
Proof.
  induction a as [|ev a IH]; simpl; [reflexivity|].
  destruct ev; simpl; rewrite IH; reflexivity.
Qed.

Lemma attempts_made_app (a b : list Event) :
  attempts_made (a ++ b) = (attempts_made a + attempts_made b)%nat.
Proof.
  induction a as [|ev a IH]; simpl; [reflexivity|].
  destruct ev; simpl; rewrite IH; reflexivity.
Qed.

Section OneAttempt.

Variables (hub : Hub) (i : nat) (st : Process).

Local Abbreviation st' := (state_after (try_load hub i) st).

Ltac attempt_cases :=
  unfold attempt_outcome, state_after, result_of, try_load, bind,
    call, set_tokenizer, set_model, get_device, fails;
  destruct (T5Tokenizer_from_pretrained hub i) as [e1|t1]; simpl;
  [|destruct (T5ForConditionalGeneration_from_pretrained hub i) as [e2|m2];
    simpl;
    [|destruct (model_to m2 (device st)) as [e3|[]]; simpl;
      [|destruct (model_eval m2) as [e4|[]]; simpl]]].

(** An attempt raises what the first failing call of the four raises. *)
Lemma try_load_result :
  result_of (try_load hub i) st = attempt_outcome hub (device st) i.
Proof. attempt_cases; reflexivity. Qed.

Lemma try_load_device : device st' = device st.
Proof. attempt_cases; reflexivity. Qed.

Lemma try_load_trace :
  exists evs, trace st' = trace st ++ evs
              /\ attempts_made evs = 1%nat /\ sleeps evs = [].
Proof.
  attempt_cases; repeat rewrite <- app_assoc; simpl;
    eexists; (split; [reflexivity|split; reflexivity]).
Qed.

(** A successful attempt leaves both handles it fetched assigned. *)
Lemma try_load_success :
  attempt_outcome hub (device st) i = inr tt ->
  exists m t,
    T5ForConditionalGeneration_from_pretrained hub i = inr m
    /\ T5Tokenizer_from_pretrained hub i = inr t
    /\ model st' = Some m /\ tokenizer st' = Some t.
Proof.
  attempt_cases; intros H; try discriminate H.
  exists m2, t1. repeat split; reflexivity.
Qed.

(** The tokenizer is assigned before the model. *)
Lemma try_load_pairing :
  (model st <> None -> tokenizer st <> None) ->
  model st' <> None -> tokenizer st' <> None.
Proof. attempt_cases; intros H Hm; try discriminate; auto. Qed.



End OneAttempt.

(** One turn of the loop, in terms of what the attempt does. *)
Lemma load_attempts_cons (hub : Hub) (max_retries : Z) (attempt : nat)
    (rest : list nat) (retry_delay : Z) (st : Process) :
  load_attempts hub max_retries (attempt :: rest) retry_delay st
  = let st1 := state_after (try_load hub attempt) st in
    match attempt_outcome hub (device st) attempt with
    | inr _ => (st1, inr tt)
    | inl e =>
        if Z.of_nat attempt <? max_retries - 1
        then load_attempts hub max_retries rest (retry_delay * 2)
               (log (Sleep retry_delay) st1)
        else (st1, inl e)
    end.
Proof.
  rewrite <- try_load_result. unfold state_after, result_of. simpl.
  destruct (try_load hub attempt st) as [st1 [e|u]]; simpl; reflexivity.
Qed.

Lemma load_model_unfold (hub : Hub) (st : Process) :
  model st = None \/ tokenizer st = None ->
  load_model hub st = load_attempts hub 3 [0; 1; 2]%nat 5 st.
Proof.
  intros H. unfold load_model.
  destruct H as [H|H]; rewrite H; simpl; [|rewrite orb_true_r]; reflexivity.
Qed.

Lemma load_model_loaded (hub : Hub) (st : Process) :
  model st <> None -> tokenizer st <> None ->
  load_model hub st = (st, inr tt).
Proof.
  intros Hm Ht. unfold load_model.
  destruct (model st); [|congruence]. destruct (tokenizer st); [|congruence].
  reflexivity.
Qed.

Lemma unset_or_set (st : Process) :
  (model st = None \/ tokenizer st = None)
  \/ (model st <> None /\ tokenizer st <> None).
Proof.
  destruct (model st); [|left; left; reflexivity].
  destruct (tokenizer st); [|left; right; reflexivity].
  right. split; discriminate.
Qed.

(** The three turns of the loop written out: the state after each attempt
    and after each sleep, and what the loader returns in each case. *)
Section ThreeAttempts.

Variables (hub : Hub) (st : Process).

Local Abbreviation after_attempt_0 := (after_attempt_0 hub st).
Local Abbreviation after_sleep_0 := (after_sleep_0 hub st).
Local Abbreviation after_attempt_1 := (after_attempt_1 hub st).
Local Abbreviation after_sleep_1 := (after_sleep_1 hub st).
Local Abbreviation after_attempt_2 := (after_attempt_2 hub st).

Lemma load_attempts_3 :
  load_attempts hub 3 [0; 1; 2]%nat 5 st
  = match attempt_outcome hub (device st) 0 with
    | inr _ => (after_attempt_0, inr tt)
    | inl _ =>
        match attempt_outcome hub (device st) 1 with
        | inr _ => (after_attempt_1, inr tt)
        | inl _ => (after_attempt_2, attempt_outcome hub (device st) 2)
        end
    end.
Proof.
  rewrite load_attempts_cons. cbv zeta. fold after_attempt_0.
  destruct (attempt_outcome hub (device st) 0) as [e0|[]]; [|reflexivity].
  change (Z.of_nat 0 <? 3 - 1) with true. cbv iota.
  change (5 * 2) with 10. fold after_sleep_0.
  rewrite load_attempts_cons. cbv zeta. fold after_attempt_1.
  replace (device after_sleep_0) with (device st)
    by (unfold after_sleep_0, after_attempt_0; simpl;
        rewrite try_load_device; reflexivity).
  destruct (attempt_outcome hub (device st) 1) as [e1|[]]; [|reflexivity].
  change (Z.of_nat 1 <? 3 - 1) with true. cbv iota.
  fold after_sleep_1.
  rewrite load_attempts_cons. cbv zeta. fold after_attempt_2.
  replace (device after_sleep_1) with (device st)
    by (unfold after_sleep_1, after_attempt_1, after_sleep_0, after_attempt_0;
        simpl; rewrite !try_load_device; simpl; rewrite try_load_device;
        reflexivity).
  destruct (attempt_outcome hub (device st) 2) as [e2|[]]; reflexivity.
Qed.

Lemma trace_after_attempt_0 :
  exists evs, trace after_attempt_0 = trace st ++ evs
              /\ attempts_made evs = 1%nat /\ sleeps evs = [].
Proof. exact (try_load_trace hub 0 st). Qed.

Lemma trace_after_attempt_1 :
  exists evs, trace after_attempt_1 = trace st ++ evs
              /\ attempts_made evs = 2%nat /\ sleeps evs = [5].
Proof.
  destruct trace_after_attempt_0 as (ev0 & T0 & A0 & S0).
  destruct (try_load_trace hub 1 after_sleep_0) as (ev1 & T1 & A1 & S1).
  exists (ev0 ++ [Sleep 5] ++ ev1).
  cbv zeta in T1. fold after_attempt_1 in T1.
  rewrite T1. unfold after_sleep_0. simpl trace. rewrite T0.
  rewrite !attempts_made_app, !sleeps_app, A0, A1, S0, S1.
  rewrite <- !app_assoc. repeat split.
Qed.

Lemma trace_after_attempt_2 :
  exists evs, trace after_attempt_2 = trace st ++ evs
              /\ attempts_made evs = 3%nat /\ sleeps evs = [5; 10].
Proof.
  destruct trace_after_attempt_1 as (ev1 & T1 & A1 & S1).
  destruct (try_load_trace hub 2 after_sleep_1) as (ev2 & T2 & A2 & S2).
  exists (ev1 ++ [Sleep 10] ++ ev2).
  cbv zeta in T2. fold after_attempt_2 in T2.
  rewrite T2. unfold after_sleep_1. simpl trace. rewrite T1.
  rewrite !attempts_made_app, !sleeps_app, A1, A2, S1, S2.
  rewrite <- !app_assoc. repeat split.
Qed.

End ThreeAttempts.

(** The handler's answer while a handle is unset. *)
Lemma paraphrase_unset (request : ParaphraseRequest) (st : Process) :
  strip (text request) <> [] ->
  model st = None \/ tokenizer st = None ->
  paraphrase request st
  = (st, inl {| status_code := 503; detail := lit "Model not loaded" |}).
Proof.
  intros Hs Hn. unfold paraphrase.
  destruct (strip (text request)); [congruence|]. simpl.
  destruct Hn as [Hn|Hn]; rewrite Hn; [reflexivity|].
  destruct (model st); reflexivity.
Qed.

(** The handles along the three failed attempts. *)
Section Exhausted.

Variables (hub : Hub) (st : Process).




End Exhausted.




(** ** The request handler *)

Lemma starts_with_app (n x : str) : starts_with n (n ++ x) = true.
Proof.
  induction n as [|c n IH]; simpl; [reflexivity|].
  rewrite Z.eqb_refl, IH. reflexivity.
Qed.

Lemma contains_suffix (p n : str) : contains n (p ++ n) = true.
Proof.
  induction p as [|c p IH]; simpl.
  - rewrite <- (app_nil_r n) at 2. destruct n; simpl.
    + reflexivity.
    + rewrite Z.eqb_refl, app_nil_r.
      rewrite <- (app_nil_r n) at 2. rewrite starts_with_app. reflexivity.
  - rewrite IH. apply orb_true_r.
Qed.

Lemma lstrip_whitespace (s : str) :
  lstrip s = [] <-> forallb Py_UNICODE_ISSPACE s = true.
Proof.
  induction s as [|c s IH]; simpl; [tauto|].
  destruct (Py_UNICODE_ISSPACE c); simpl; [exact IH|].
  split; discriminate.
Qed.

(** A text trims to nothing exactly when all its characters are
    whitespace. *)
Lemma strip_whitespace (s : str) :
  strip s = [] <-> forallb Py_UNICODE_ISSPACE s = true.
Proof.
  rewrite <- lstrip_whitespace. unfold strip, rstrip. split.
  - intros H. apply (f_equal (@rev char)) in H.
    rewrite rev_involutive in H. simpl in H.
    apply lstrip_whitespace in H.
    rewrite forallb_forall in H.
    assert (A : forallb Py_UNICODE_ISSPACE (lstrip s) = true).
    { apply forallb_forall. intros c Hc. apply H. apply in_rev in Hc. exact Hc. }
    clear H. induction s as [|c s IH]; simpl in *; [reflexivity|].
    destruct (Py_UNICODE_ISSPACE c) eqn:E; [exact (IH A)|].
    simpl in A. rewrite E in A. discriminate A.
  - intros H. rewrite H. reflexivity.
Qed.

Lemma tokenized_app (a b : list Event) :
  tokenized (a ++ b) = tokenized a ++ tokenized b.
Proof.
  induction a as [|ev a IH]; simpl; [reflexivity|].
  destruct ev; simpl; rewrite IH; reflexivity.
Qed.

Lemma same_globals_refl (st : Process) : same_globals st st.
Proof. repeat split. Qed.

Lemma same_globals_trans (a b c : Process) :
  same_globals a b -> same_globals b c -> same_globals a c.
Proof.
  unfold same_globals. intros (M1 & T1 & D1 & C1) (M2 & T2 & D2 & C2).
  repeat split; congruence.
Qed.

Lemma same_globals_log (ev : Event) (st : Process) :
  same_globals st (log ev st).
Proof. repeat split. Qed.

Section Decoding.

Variable t : T5Tokenizer.

Lemma decode_all_cons (o : Tokens) (outputs : list Tokens) (st : Process) :
  decode_all t (o :: outputs) st
  = match decode t o with
    | inl e => (log (Decode o) st, inl e)
    | inr p =>
        match decode_all t outputs (log (Decode o) st) with
        | (st2, inl e) => (st2, inl e)
        | (st2, inr ps) => (st2, inr (p :: ps))
        end
    end.
Proof.
  simpl. unfold bind, call, ret. destruct (decode t o); reflexivity.
Qed.

(** Decoding only adds [Decode] events and touches no global. *)
Lemma decode_all_effect (outputs : list Tokens) (st : Process) :
  same_globals st (state_after (decode_all t outputs) st)
  /\ exists evs,
       trace (state_after (decode_all t outputs) st) = trace st ++ evs
       /\ tokenized evs = [].
Proof.
  revert st. induction outputs as [|o outputs IH]; intros st.
  - split; [apply same_globals_refl|]. exists []. simpl.
    rewrite app_nil_r. split; reflexivity.
  - unfold state_after. rewrite decode_all_cons.
    destruct (decode t o) as [e|p].
    + simpl. split; [apply same_globals_log|].
      exists [Decode o]. split; reflexivity.
    + destruct (IH (log (Decode o) st)) as (G & evs & T & K).
      unfold state_after in G, T.
      destruct (decode_all t outputs (log (Decode o) st)) as [st2 [e|ps]];
        simpl in *;
        (split;
         [exact (same_globals_trans _ _ _ (same_globals_log (Decode o) st) G)
         |exists (Decode o :: evs); rewrite T, <- app_assoc;
          split; [reflexivity|exact K]]).
Qed.

(** The first output that cannot be decoded makes the comprehension
    raise. *)
Lemma decode_all_raises (decoded : list Tokens) (output : Tokens)
    (rest : list Tokens) (e : Exception) (st : Process) :
  Forall (fun o => ~ fails (decode t o)) decoded ->
  decode t output = inl e ->
  result_of (decode_all t (decoded ++ output :: rest)) st = inl e.
Proof.
  intros Hd He. revert st.
  induction Hd as [|o decoded Ho Hd IH]; intros st; unfold result_of;
    simpl app; rewrite decode_all_cons.
  - rewrite He. reflexivity.
  - destruct (decode t o) as [e'|p].
    + exfalso. apply Ho. exists e'. reflexivity.
    + specialize (IH (log (Decode o) st)).
      unfold result_of in IH.
      destruct (decode_all t (decoded ++ output :: rest) (log (Decode o) st))
        as [st2 [e2|ps]]; simpl in *; [exact IH|discriminate IH].
Qed.

Lemma decode_all_fails_split (outputs : list Tokens) (e : Exception)
    (st : Process) :
  result_of (decode_all t outputs) st = inl e ->
  exists decoded output rest,
    outputs = decoded ++ output :: rest
    /\ Forall (fun o => ~ fails (decode t o)) decoded
    /\ decode t output = inl e.
Proof.
  revert st. induction outputs as [|o outputs IH]; intros st;
    unfold result_of.
  - simpl. discriminate.
  - rewrite decode_all_cons.
    destruct (decode t o) as [e'|p] eqn:Ho.
    + intros H. injection H as ->.
      exists [], o, outputs. repeat split; [constructor|exact Ho].
    + specialize (IH (log (Decode o) st)). unfold result_of in IH.
      destruct (decode_all t outputs (log (Decode o) st)) as [st2 [e2|ps]];
        simpl in *; [|discriminate].
      intros H. destruct (IH H) as (decoded & output & rest & E & F & X).
      exists (o :: decoded), output, rest. subst outputs.
      split; [reflexivity|]. split; [|exact X].
      constructor; [|exact F].
      intros [e3 He3]. congruence.
Qed.

End Decoding.

Section Generation.

Variables (m : T5ForConditionalGeneration) (t : T5Tokenizer).
Variables (request : ParaphraseRequest) (st : Process).

Local Abbreviation ev_tokenize := (Tokenize (text request) 256).
Local Abbreviation ev_to := (EncodingTo (device st)).
Local Abbreviation ev_generate :=
  (Generate (num_return_sequences request) (num_beams request)
     (temperature request) 256 true).

(** The body of the [try], call by call. *)
Lemma generation_steps :
  generation m t request st
  = match tokenizer_call t (text request) 256 with
    | inl e => (log ev_tokenize st, inl e)
    | inr enc =>
        match encoding_to t enc (device st) with
        | inl e => (log ev_to (log ev_tokenize st), inl e)
        | inr input_ids =>
            match generate m input_ids (num_return_sequences request)
                    (num_beams request) (temperature request) 256 true with
            | inl e => (log ev_generate (log ev_to (log ev_tokenize st)), inl e)
            | inr outputs =>
                match decode_all t outputs
                        (log ev_generate (log ev_to (log ev_tokenize st))) with
                | (st4, inl e) => (st4, inl e)
                | (st4, inr ps) =>
                    (st4,
                     inr {| ParaphraseResponse.original_text := text request;
                            ParaphraseResponse.paraphrases := ps;
                            ParaphraseResponse.device := device st4 |})
                end
            end
        end
    end.
Proof.
  unfold generation, bind, call, get_device, ret. simpl.
  destruct (tokenizer_call t (text request) 256) as [e|enc]; [reflexivity|].
  destruct (encoding_to t enc (device st)) as [e|input_ids]; [reflexivity|].
  destruct (generate m input_ids _ _ _ 256 true) as [e|outputs];
    [reflexivity|].
  destruct (decode_all t outputs _) as [st4 [e|ps]]; reflexivity.
Qed.

Lemma generation_raises_result (e : Exception) :
  generation_raises m t request (device st) e ->
  result_of (generation m t request) st = inl e.
Proof.
  intros H. unfold result_of. rewrite generation_steps.
  destruct H as [e He | enc e He Ht | enc ids e He Ht Hg
                | enc ids outputs decoded output rest e He Ht Hg Ho Hd Hx].
  - rewrite He. reflexivity.
  - rewrite He, Ht. reflexivity.
  - rewrite He, Ht, Hg. reflexivity.
  - rewrite He, Ht, Hg. subst outputs.
    pose proof (decode_all_raises t decoded output rest e
                  (log ev_generate (log ev_to (log ev_tokenize st))) Hd Hx) as R.
    unfold result_of in R.
    destruct (decode_all t (decoded ++ output :: rest) _) as [st4 [e4|ps]];
      simpl in *; [congruence|discriminate R].
Qed.

(** Whatever happens in the [try], the globals stay as they were and the
    tokenizer has been handed the request text, once. *)
Lemma generation_effect :
  same_globals st (state_after (generation m t request) st)
  /\ exists evs,
       trace (state_after (generation m t request) st) = trace st ++ evs
       /\ tokenized evs = [text request].
Proof.
  unfold state_after. rewrite generation_steps.
  destruct (tokenizer_call t (text request) 256) as [e|enc].
  { split; [repeat split|]. exists [ev_tokenize]. split; reflexivity. }
  destruct (encoding_to t enc (device st)) as [e|input_ids].
  { split; [repeat split|]. exists [ev_tokenize; ev_to]. simpl.
    rewrite <- app_assoc. split; reflexivity. }
  destruct (generate m input_ids _ _ _ 256 true) as [e|outputs].
  { split; [repeat split|]. exists [ev_tokenize; ev_to; ev_generate]. simpl.
    rewrite <- !app_assoc. split; reflexivity. }
  destruct (decode_all_effect t outputs
              (log ev_generate (log ev_to (log ev_tokenize st))))
    as (G & evs & T & K).
  unfold state_after in G, T.
  destruct (decode_all t outputs _) as [st4 [e|ps]]; simpl in *;
    (split;
     [destruct G as (G1 & G2 & G3 & G4); repeat split; assumption
     |exists ([ev_tokenize; ev_to; ev_generate] ++ evs);
      rewrite T, <- !app_assoc; split; [reflexivity|simpl; rewrite K; reflexivity]]).
Qed.

Lemma generation_original_text (response : ParaphraseResponse.t) :
  result_of (generation m t request) st = inr response ->
  ParaphraseResponse.original_text response = text request.
Proof.
  unfold result_of. rewrite generation_steps.
  destruct (tokenizer_call t (text request) 256) as [e|enc]; [discriminate|].
  destruct (encoding_to t enc (device st)) as [e|input_ids]; [discriminate|].
  destruct (generate m input_ids _ _ _ 256 true) as [e|outputs];
    [discriminate|].
  destruct (decode_all t outputs _) as [st4 [e|ps]]; simpl; [discriminate|].
  intros H. injection H as <-. reflexivity.
Qed.

(** Conversely, the [try] raises only in one of these four ways. *)
Lemma generation_raises_complete (e : Exception) :
  result_of (generation m t request) st = inl e ->
  generation_raises m t request (device st) e.
Proof.
  unfold result_of. rewrite generation_steps.
  destruct (tokenizer_call t (text request) 256) as [e1|enc] eqn:He.
  { intros H. injection H as ->. apply raises_in_encode. exact He. }
  destruct (encoding_to t enc (device st)) as [e2|input_ids] eqn:Ht.
  { intros H. injection H as ->. eapply raises_in_to; eassumption. }
  destruct (generate m input_ids _ _ _ 256 true) as [e3|outputs] eqn:Hg.
  { intros H. injection H as ->. eapply raises_in_generate; eassumption. }
  intros H.
  destruct (decode_all_fails_split t outputs e
              (log ev_generate (log ev_to (log ev_tokenize st))))
    as (decoded & output & rest & Ho & Hd & Hx).
  - unfold result_of.
    destruct (decode_all t outputs _) as [st4 [e4|ps]]; simpl in *;
      [congruence|discriminate H].
  - eapply raises_in_decode; eassumption.
Qed.

(** The handler past its two guards. *)
Lemma paraphrase_loaded :
  strip (text request) <> [] ->
  model st = Some m ->
  tokenizer st = Some t ->
  paraphrase request st
  = match generation m t request st with
    | (st1, inr response) => (st1, inr response)
    | (st1, inl e) =>
        (st1, inl {| status_code := 500;
                     detail := lit "Error during paraphrasing: " ++ exc_str e |})
    end.
Proof.
  intros Hs Hm Ht. unfold paraphrase. rewrite Hm, Ht.
  destruct (strip (text request)); [congruence|]. reflexivity.
Qed.

End Generation.

(** C4: a request whose text trims to the empty string is refused with an
    HTTP 400 whose detail contains the words cannot be empty, whatever the
    state of the handles, and the process is left exactly as it was: no call
    to the tokenizer or the model is recorded. *)
Theorem paraphrase_blank_text_rejected (request : ParaphraseRequest)
    (st : Process) :
  strip (text request) = [] ->
  exists e,
    result_of (paraphrase request) st = inl e
    /\ status_code e = 400
    /\ http_status (result_of (paraphrase request) st) = 400
    /\ contains (lit "cannot be empty") (detail e) = true
    /\ state_after (paraphrase request) st = st.
Proof.
  intros H. unfold result_of, state_after, paraphrase. rewrite H. simpl.
  eexists. split; [reflexivity|]. repeat split.
Qed.

Lemma paraphrase_blank_text_rejected_witness :
  strip (lit "") = [] /\ strip (lit "   ") = []
  /\ http_status
       (result_of (paraphrase (request_of (lit "   ")))
          (loaded copy_model plain_tokenizer)) = 400
  /\ trace (state_after (paraphrase (request_of (lit "")))
              (loaded copy_model plain_tokenizer)) = [].
Proof.
  split; [reflexivity|]. split; [reflexivity|]. split.
  - destruct (paraphrase_blank_text_rejected (request_of (lit "   "))
                (loaded copy_model plain_tokenizer))
      as (e & _ & _ & S & _); [reflexivity|exact S].
  - destruct (paraphrase_blank_text_rejected (request_of (lit ""))
                (loaded copy_model plain_tokenizer))
      as (e & _ & _ & _ & _ & S); [reflexivity|rewrite S; reflexivity].
Defined.

(** C6: with both handles set and a text that does not trim to the empty
    string, an exception raised by the encoding, by its move to the device,
    by the generation or by the decoding of an output is answered with an
    HTTP 500 whose detail ends with the message of that exception, and the
    globals (model, tokenizer, device) are the same afterwards. *)
Theorem paraphrase_generation_failed (request : ParaphraseRequest)
    (st : Process) (m : T5ForConditionalGeneration) (t : T5Tokenizer)
    (e : Exception) :
  strip (text request) <> [] ->
  model st = Some m ->
  tokenizer st = Some t ->
  generation_raises m t request (device st) e ->
  result_of (paraphrase request) st
  = inl {| status_code := 500;
           detail := lit "Error during paraphrasing: " ++ exc_str e |}
  /\ http_status (result_of (paraphrase request) st) = 500
  /\ (forall x, result_of (paraphrase request) st = inl x ->
        contains (exc_str e) (detail x) = true)
  /\ same_globals st (state_after (paraphrase request) st)
  /\ model (state_after (paraphrase request) st) = Some m
  /\ tokenizer (state_after (paraphrase request) st) = Some t.
Proof.
  intros Hs Hm Ht Hr.
  pose proof (generation_raises_result m t request st e Hr) as R.
  destruct (generation_effect m t request st) as (G & _).
  unfold result_of, state_after in *.
  rewrite (paraphrase_loaded m t request st Hs Hm Ht).
  destruct (generation m t request st) as [st1 [e1|response]]; simpl in *;
    [|discriminate R].
  injection R as ->.
  split; [reflexivity|]. split; [reflexivity|].
  split.
  { intros x Hx. injection Hx as <-.
    exact (contains_suffix (lit "Error during paraphrasing: ") (exc_str e)). }
  split; [exact G|].
  destruct G as (G1 & G2 & _). split; congruence.
Qed.

Lemma paraphrase_generation_failed_witness :
  result_of (paraphrase (request_of (lit "Hello world")))
    (loaded broken_model plain_tokenizer)
  = inl {| status_code := 500;
           detail := lit "Error during paraphrasing: CUDA out of memory" |}
  /\ model (state_after (paraphrase (request_of (lit "Hello world")))
              (loaded broken_model plain_tokenizer)) = Some broken_model.
Proof.
  destruct (paraphrase_generation_failed (request_of (lit "Hello world"))
              (loaded broken_model plain_tokenizer) broken_model
              plain_tokenizer out_of_memory)
    as (R & _ & _ & _ & M' & _).
  - discriminate.
  - reflexivity.
  - reflexivity.
  - eapply raises_in_generate; reflexivity.
  - split; [exact R|exact M'].
Defined.

(** A failure in the decoding of the second output is reported the same
    way. *)
Example paraphrase_decode_failure :
  result_of (paraphrase (request_of (lit "Hi")))
    (loaded copy_model strict_tokenizer)
  = inl {| status_code := 500;
           detail := lit "Error during paraphrasing: empty sequence" |}.
Proof. reflexivity. Qed.

(** ** The health endpoint *)

(** The device string is decided once, at import. *)
Lemma import_main_device (cuda : bool) :
  device (import_main cuda) = if cuda then lit "cuda" else lit "cpu".
Proof. reflexivity. Qed.

(** Before the load, and after a load that failed in the tokenizer fetch,
    [health] reports the model as not loaded; after a successful load it
    reports it as loaded. *)
Example health_while_unloaded :
  result_of health (import_main false)
  = inr {| Health.status := lit "healthy"; Health.model_loaded := false;
           Health.device := lit "cpu"; Health.cuda_available := false |}.
Proof. reflexivity. Qed.

Example health_after_failed_load :
  result_of health (state_after (load_model hub_down) (import_main true))
  = inr {| Health.status := lit "healthy"; Health.model_loaded := false;
           Health.device := lit "cuda"; Health.cuda_available := true |}.
Proof. reflexivity. Qed.

Example health_after_load :
  result_of health (state_after (load_model hub_flaky) (import_main true))
  = inr {| Health.status := lit "healthy"; Health.model_loaded := true;
           Health.device := lit "cuda"; Health.cuda_available := true |}.
Proof. reflexivity. Qed.

(** ** The request model *)

(** C8, as the code has it: a constructed ParaphraseRequest holds, for
    num_return_sequences, num_beams and temperature, the value the client
    supplied, or 1, 5 and 1.0 where the client supplied none; so each of the
    three is positive whenever the supplied value, if any, is positive. *)
Theorem ParaphraseRequest_init_fields (s : str) (n b : option Z)
    (x : option float) :
  text (ParaphraseRequest_init s n b x) = s
  /\ num_return_sequences (ParaphraseRequest_init s n b x)
     = match n with Some v => v | None => 1 end
  /\ num_beams (ParaphraseRequest_init s n b x)
     = match b with Some v => v | None => 5 end
  /\ temperature (ParaphraseRequest_init s n b x)
     = match x with Some v => v | None => 1.0%float end
  /\ ((forall v, n = Some v -> 0 < v) ->
      0 < num_return_sequences (ParaphraseRequest_init s n b x))
  /\ ((forall v, b = Some v -> 0 < v) ->
      0 < num_beams (ParaphraseRequest_init s n b x))
  /\ ((forall v, x = Some v -> PrimFloat.ltb 0%float v = true) ->
      PrimFloat.ltb 0%float (temperature (ParaphraseRequest_init s n b x))
      = true).
Proof.
  repeat (split; [reflexivity|]). simpl.
  split; [|split].
  - intros H. destruct n as [v|]; [apply H; reflexivity|lia].
  - intros H. destruct b as [v|]; [apply H; reflexivity|lia].
  - intros H. destruct x as [v|]; [apply H; reflexivity|reflexivity].
Qed.

Lemma ParaphraseRequest_init_fields_witness :
  0 < num_return_sequences
        (ParaphraseRequest_init (lit "Test") (Some 2) None (Some 1.5%float))
  /\ 0 < num_beams
           (ParaphraseRequest_init (lit "Test") (Some 2) None (Some 1.5%float))
  /\ PrimFloat.ltb 0%float
       (temperature
          (ParaphraseRequest_init (lit "Test") (Some 2) None (Some 1.5%float)))
     = true.
Proof.
  destruct (ParaphraseRequest_init_fields (lit "Test") (Some 2) None
              (Some 1.5%float)) as (_ & _ & _ & _ & N & B & X).
  split; [|split].
  - apply N. intros v H. injection H as <-. lia.
  - apply B. intros v H. discriminate H.
  - apply X. intros v H. injection H as <-. reflexivity.
Defined.

(** C8 as stated fails: a request is constructed from a zero count, a
    negative beam width and a negative temperature, and holds them. *)
Lemma ParaphraseRequest_accepts_non_positive :
  num_return_sequences
    (ParaphraseRequest_init (lit "Test") (Some 0) (Some (-1))
       (Some (-0.5)%float)) = 0
  /\ num_beams
       (ParaphraseRequest_init (lit "Test") (Some 0) (Some (-1))
          (Some (-0.5)%float)) = -1
  /\ PrimFloat.ltb 0%float
       (temperature
          (ParaphraseRequest_init (lit "Test") (Some 0) (Some (-1))
             (Some (-0.5)%float))) = false
  /\ ~ (0 < num_return_sequences
              (ParaphraseRequest_init (lit "Test") (Some 0) (Some (-1))
                 (Some (-0.5)%float))).
Proof.
  split; [reflexivity|]. split; [reflexivity|]. split; [reflexivity|].
  simpl. lia.
Qed.

(** ** The loader and its readers *)

(** A load that returns normally from unset handles leaves both set. *)
Lemma load_model_success_sets_handles (hub : Hub) (st : Process) :
  model st = None \/ tokenizer st = None ->
  result_of (load_model hub) st = inr tt ->
  model (state_after (load_model hub) st) <> None
  /\ tokenizer (state_after (load_model hub) st) <> None.
Proof.
  intros U. unfold result_of, state_after.
  rewrite (load_model_unfold hub st U), load_attempts_3.
  assert (D1 : device (after_sleep_0 hub st) = device st)
    by (unfold after_sleep_0, after_attempt_0; simpl;
        apply try_load_device).
  assert (D2 : device (after_sleep_1 hub st) = device st)
    by (unfold after_sleep_1, after_attempt_1; simpl;
        rewrite try_load_device; exact D1).
  destruct (attempt_outcome hub (device st) 0) as [e0|[]] eqn:O0.
  - destruct (attempt_outcome hub (device st) 1) as [e1|[]] eqn:O1.
    + simpl. intros O2. rewrite <- D2 in O2.
      destruct (try_load_success hub 2 _ O2) as (m & t & _ & _ & Hm & Ht).
      unfold after_attempt_2. rewrite Hm, Ht. split; discriminate.
    + simpl. intros _. rewrite <- D1 in O1.
      destruct (try_load_success hub 1 _ O1) as (m & t & _ & _ & Hm & Ht).
      unfold after_attempt_1. rewrite Hm, Ht. split; discriminate.
  - simpl. intros _.
    destruct (try_load_success hub 0 _ O0) as (m & t & _ & _ & Hm & Ht).
    unfold after_attempt_0. rewrite Hm, Ht. split; discriminate.
Qed.

(** When the weights are fetched and the move to the device raises in all
    3 attempts, the loader raises with both handles set: [health] then
    reports the model as loaded and [paraphrase] serves requests. *)
Example load_model_raises_with_handles_set :
  result_of (load_model hub_unmovable) (import_main true) = inl out_of_memory
  /\ model (state_after (load_model hub_unmovable) (import_main true))
     = Some unmovable_model
  /\ tokenizer (state_after (load_model hub_unmovable) (import_main true))
     = Some plain_tokenizer
  /\ result_of health
       (state_after (load_model hub_unmovable) (import_main true))
     = inr {| Health.status := lit "healthy"; Health.model_loaded := true;
              Health.device := lit "cuda"; Health.cuda_available := true |}
  /\ http_status
       (result_of (paraphrase (request_of (lit "Hi")))
          (state_after (load_model hub_unmovable) (import_main true)))
     = 200.
Proof. repeat split. Qed.

(** After a load that failed with the tokenizer fetched and the weights
    missing, requests are refused with 503. *)
Example paraphrase_after_partial_load :
  result_of (paraphrase (request_of (lit "Hi")))
    (state_after (load_model hub_without_weights) (import_main false))
  = inl {| status_code := 503; detail := lit "Model not loaded" |}.
Proof. reflexivity. Qed.

(** A property of the process kept by each attempt and by each recorded
    sleep is kept by the whole loop, however it ends. *)
Lemma load_attempts_preserves (P : Process -> Prop) (hub : Hub)
    (max_retries : Z) :
  (forall i st, P st -> P (state_after (try_load hub i) st)) ->
  (forall secs st, P st -> P (log (Sleep secs) st)) ->
  forall attempts retry_delay st,
    P st ->
    P (state_after (load_attempts hub max_retries attempts retry_delay) st).
Proof.
  intros Ha Hl attempts.
  induction attempts as [|i rest IH]; intros d st H.
  - exact H.
  - unfold state_after. rewrite load_attempts_cons. cbv zeta.
    destruct (attempt_outcome hub (device st) i) as [e|u].
    + destruct (Z.of_nat i <? max_retries - 1).
      * apply IH, Hl, Ha, H.
      * apply Ha, H.
    + apply Ha, H.
Qed.

(** In every state the loader can leave, a set model handle comes with a set
    tokenizer handle. *)
Lemma load_model_pairing (hub : Hub) (st : Process) :
  (model st <> None -> tokenizer st <> None) ->
  model (state_after (load_model hub) st) <> None ->
  tokenizer (state_after (load_model hub) st) <> None.
Proof.
  intros H. unfold state_after, load_model.
  destruct (is_None (model st) || is_None (tokenizer st)); [|exact H].
  apply (load_attempts_preserves
           (fun s => model s <> None -> tokenizer s <> None)).
  - intros i s. apply try_load_pairing.
  - intros secs s Hs. exact Hs.
  - exact H.
Qed.

(** So after the startup load, whatever its outcome, [health] reports the
    model as loaded exactly when [paraphrase] would pass its guard. *)
Lemma health_agrees_with_guard (hub : Hub) (cuda : bool) :
  negb (is_None (model (state_after (load_model hub) (import_main cuda))))
  = true
  <-> model (state_after (load_model hub) (import_main cuda)) <> None
      /\ tokenizer (state_after (load_model hub) (import_main cuda)) <> None.
Proof.
  pose proof (load_model_pairing hub (import_main cuda)) as P.
  simpl in P. specialize (P (fun H => False_ind _ (H eq_refl))).
  destruct (model (state_after (load_model hub) (import_main cuda))); simpl.
  - split; [intros _; split; [discriminate|apply P; discriminate]|reflexivity].
  - split; [discriminate|intros [H _]; congruence].
Qed.

(** * Further properties *)

(** ** TextValidator: what is accepted and what is kept *)

Section ValidatorMore.

Import TextValidator.

Lemma valid_char_spec (c : char) :
  _is_valid_char c = true
  <-> (1072 <= c <= 1103 \/ 1040 <= c <= 1071 \/ c = 1105 \/ c = 1025)
      \/ (97 <= c <= 122 \/ 65 <= c <= 90)
      \/ 48 <= c <= 57
      \/ Py_UNICODE_ISSPACE c = true
      \/ (c = 46 \/ c = 44 \/ c = 33 \/ c = 63 \/ c = 59 \/ c = 58 \/ c = 45
          \/ c = 8212 \/ c = 8211 \/ c = 34 \/ c = 39 \/ c = 171 \/ c = 187
          \/ c = 8222).
Proof.
  unfold _is_valid_char. rewrite any_pattern_matches_existsb.
  unfold ALLOWED_PATTERNS, re_match. cbn [existsb item_matches].
  rewrite !orb_true_iff, !andb_true_iff, !Z.leb_le, !Z.eqb_eq.
  intuition lia.
Qed.

Lemma isspace_spec (c : char) :
  Py_UNICODE_ISSPACE c = true
  <-> 9 <= c <= 13 \/ 28 <= c <= 32 \/ c = 133 \/ c = 160 \/ c = 5760
      \/ 8192 <= c <= 8202 \/ c = 8232 \/ c = 8233 \/ c = 8239 \/ c = 8287
      \/ c = 12288.
Proof.
  unfold Py_UNICODE_ISSPACE.
  rewrite !orb_true_iff, !andb_true_iff, !Z.leb_le, !Z.eqb_eq.
  lia.
Qed.

Lemma filter_all (p : char -> bool) (s : str) :
  forallb p s = true -> filter p s = s.
Proof.
  induction s as [|c s IH]; simpl; [reflexivity|].
  destruct (p c); simpl; [|discriminate].
  intros H. rewrite (IH H). reflexivity.
Qed.

Lemma is_valid_text_spec (s : str) :
  is_valid_text s = true
  <-> s <> []
      /\ existsb forbidden s = false
      /\ forallb _is_valid_char s = true.
Proof.
  unfold is_valid_text. rewrite all_chars_valid_forallb.
  destruct s as [|c s]; [simpl; split; [discriminate|intros [H _]; congruence]|].
  cbn [truthy negb].
  destruct (existsb forbidden (c :: s)).
  - split; [discriminate|intros (_ & H & _); discriminate H].
  - split; [intros H; repeat split; [discriminate|exact H]|intros (_ & _ & H); exact H].
Qed.

Lemma forbidden_spec (c : char) :
  forbidden c = true <-> 0 <= c <= 8 \/ c = 11 \/ c = 12 \/ c = 14.
Proof.
  unfold forbidden, FORBIDDEN_CHARS. cbn [existsb].
  rewrite !orb_true_iff, !Z.eqb_eq. lia.
Qed.

(** X1: a text that [is_valid_text] accepts is returned unchanged by
    [filter_text]. *)
Theorem valid_text_unchanged_by_filter (s : str) :
  is_valid_text s = true -> filter_text s = s.
Proof.
  intros H. apply is_valid_text_spec in H. destruct H as (_ & _ & H).
  apply filter_all. exact H.
Qed.

Lemma valid_text_unchanged_by_filter_witness :
  filter_text (lit "Hello, World 123") = lit "Hello, World 123".
Proof. apply valid_text_unchanged_by_filter. reflexivity. Defined.

(** X2: when [filter_text] returns a non-empty text, [is_valid_text] accepts
    that text exactly when the input has no vertical tab (U+000B) and no form
    feed (U+000C). *)
Theorem filter_text_valid_iff (s : str) :
  filter_text s <> [] ->
  (is_valid_text (filter_text s) = true <-> ~ In 11 s /\ ~ In 12 s).
Proof.
  intros H. rewrite (is_valid_filter_text s H).
  rewrite negb_true_iff.
  split.
  - intros E. split; intros Hin;
      (assert (X : existsb (fun c => (c =? 11) || (c =? 12)) s = true)
         by (apply existsb_exists; eexists; split; [exact Hin|reflexivity]);
       congruence).
  - intros [H1 H2].
    destruct (existsb (fun c => (c =? 11) || (c =? 12)) s) eqn:E; [|reflexivity].
    apply existsb_exists in E. destruct E as (c & Hin & Hc).
    apply orb_true_iff in Hc. rewrite !Z.eqb_eq in Hc.
    destruct Hc as [-> | ->]; contradiction.
Qed.

Lemma filter_text_valid_iff_witness :
  is_valid_text (filter_text (lit "Hello<>World")) = true
  /\ is_valid_text (filter_text [72; 11; 105]) = false.
Proof.
  split.
  - apply (filter_text_valid_iff (lit "Hello<>World")); [discriminate|].
    split; intros H; simpl in H;
      repeat (destruct H as [H|H]; [discriminate H|]); exact H.
  - destruct (is_valid_text (filter_text [72; 11; 105])) eqn:E; [|reflexivity].
    apply (filter_text_valid_iff [72; 11; 105]) in E; [|discriminate].
    destruct E as [E _]. exfalso. apply E. simpl. auto.
Defined.

(** X3: every character [filter_text] keeps comes from the input, is
    neither the less-than nor the greater-than sign, is a member of
    [FORBIDDEN_CHARS] only if it is U+000B or U+000C, and, if below U+0020, is
    one of U+0009..U+000D and U+001C..U+001F. *)
Theorem filter_text_removes_markup_and_controls (s : str) (c : char) :
  In c (filter_text s) ->
  In c s
  /\ c <> 60 /\ c <> 62
  /\ (forbidden c = true -> c = 11 \/ c = 12)
  /\ (0 <= c < 32 -> 9 <= c <= 13 \/ 28 <= c <= 31).
Proof.
  unfold filter_text. intros H. apply filter_In in H. destruct H as [Hin Hc].
  split; [exact Hin|].
  apply valid_char_spec in Hc. rewrite isspace_spec in Hc.
  rewrite forbidden_spec. lia.
Qed.

Lemma filter_text_removes_markup_and_controls_witness :
  In 98 (filter_text (lit "a<b>c")) /\ In 98 (lit "a<b>c") /\ 98 <> 60.
Proof.
  assert (H : In 98 (filter_text (lit "a<b>c"))) by (simpl; auto).
  destruct (filter_text_removes_markup_and_controls (lit "a<b>c") 98 H)
    as (A & B & _).
  split; [exact H|]. split; [exact A|exact B].
Defined.

(** X4: the only characters below U+0020 that a text accepted by
    [is_valid_text] can hold are tab, line feed, carriage return and the
    separators U+001C..U+001F. *)
Theorem valid_text_control_characters (s : str) (c : char) :
  is_valid_text s = true ->
  In c s ->
  0 <= c < 32 ->
  c = 9 \/ c = 10 \/ c = 13 \/ 28 <= c <= 31.
Proof.
  intros H Hin Hc. apply is_valid_text_spec in H.
  destruct H as (_ & Hf & Hv).
  rewrite forallb_forall in Hv. specialize (Hv c Hin).
  assert (F : forbidden c = false).
  { destruct (forbidden c) eqn:E; [|reflexivity].
    assert (X : existsb forbidden s = true)
      by (apply existsb_exists; exists c; split; assumption).
    congruence. }
  apply valid_char_spec in Hv. rewrite isspace_spec in Hv.
  assert (N : ~ (0 <= c <= 8 \/ c = 11 \/ c = 12 \/ c = 14))
    by (rewrite <- forbidden_spec; congruence).
  lia.
Qed.

Lemma valid_text_control_characters_witness :
  is_valid_text [72; 28; 105] = true
  /\ (28 = 9 \/ 28 = 10 \/ 28 = 13 \/ 28 <= 28 <= 31).
Proof.
  split; [reflexivity|].
  apply (valid_text_control_characters [72; 28; 105] 28);
    [reflexivity|simpl; auto|lia].
Defined.

Lemma forallb_Forall_bool (p : char -> bool) (P : char -> Prop) (s : str) :
  (forall c, P c -> p c = true) -> Forall P s -> forallb p s = true.
Proof.
  intros H F. induction F as [|c s Hc F IH]; simpl; [reflexivity|].
  rewrite (H c Hc), IH. reflexivity.
Qed.

Lemma existsb_Forall_false (p : char -> bool) (P : char -> Prop) (s : str) :
  (forall c, P c -> p c = false) -> Forall P s -> existsb p s = false.
Proof.
  intros H F. induction F as [|c s Hc F IH]; simpl; [reflexivity|].
  rewrite (H c Hc), IH. reflexivity.
Qed.

(** X5: a non-empty text made of Latin letters, digits, the Russian letters
    (with U+0401 and U+0451), space, tab, line feed, carriage return and the
    punctuation of the fifth pattern is accepted by [is_valid_text]. *)
Theorem plain_text_is_valid (s : str) :
  s <> [] ->
  Forall (fun c =>
            97 <= c <= 122 \/ 65 <= c <= 90 \/ 48 <= c <= 57
            \/ 1040 <= c <= 1103 \/ c = 1025 \/ c = 1105
            \/ c = 32 \/ c = 9 \/ c = 10 \/ c = 13
            \/ In c [46; 44; 33; 63; 59; 58; 45; 8212; 8211; 34; 39; 171; 187;
                     8222]) s ->
  is_valid_text s = true.
Proof.
  intros Hne F. apply is_valid_text_spec. split; [exact Hne|]. split.
  - refine (existsb_Forall_false _ _ _ _ F). intros c Hc.
    destruct (forbidden c) eqn:E; [|reflexivity].
    apply forbidden_spec in E. simpl in Hc. exfalso. lia.
  - refine (forallb_Forall_bool _ _ _ _ F). intros c Hc.
    apply valid_char_spec. rewrite isspace_spec. simpl in Hc. lia.
Qed.

Lemma plain_text_is_valid_witness :
  is_valid_text (lit "Hello, this is a test.") = true.
Proof.
  apply plain_text_is_valid; [discriminate|].
  repeat (constructor; [simpl; lia|]). constructor.
Defined.

(** X6: within the Cyrillic block U+0400..U+04FF the per-character test
    accepts the Russian alphabet only: U+0410..U+044F, U+0401 and U+0451. *)
Theorem cyrillic_block_accepts_russian_only (c : char) :
  1024 <= c <= 1279 ->
  (_is_valid_char c = true <-> c = 1025 \/ 1040 <= c <= 1103 \/ c = 1105).
Proof.
  intros H. rewrite valid_char_spec, isspace_spec. lia.
Qed.

Lemma cyrillic_block_accepts_russian_only_witness :
  _is_valid_char 1110 = false /\ _is_valid_char 1078 = true.
Proof.
  split.
  - destruct (_is_valid_char 1110) eqn:E; [|reflexivity].
    apply (cyrillic_block_accepts_russian_only 1110) in E; lia.
  - apply (cyrillic_block_accepts_russian_only 1078); lia.
Defined.

(** X7: among the printable ASCII characters U+0021..U+007E the
    per-character test accepts the letters, the digits and nine punctuation
    marks (exclamation mark, double and single quote, comma, hyphen, full
    stop, colon, semicolon, question mark) and nothing else. *)
Theorem printable_ascii_accepted (c : char) :
  33 <= c <= 126 ->
  (_is_valid_char c = true
   <-> 97 <= c <= 122 \/ 65 <= c <= 90 \/ 48 <= c <= 57
       \/ In c [33; 34; 39; 44; 45; 46; 58; 59; 63]).
Proof.
  intros H. rewrite valid_char_spec, isspace_spec. simpl. lia.
Qed.

Lemma printable_ascii_accepted_witness :
  _is_valid_char 40 = false /\ _is_valid_char 63 = true.
Proof.
  split.
  - destruct (_is_valid_char 40) eqn:E; [|reflexivity].
    apply (printable_ascii_accepted 40) in E; simpl in E; lia.
  - apply (printable_ascii_accepted 63); simpl; lia.
Defined.

(** X8: the concatenation of two non-empty texts is valid exactly when both
    are. *)
Theorem is_valid_text_app (a b : str) :
  a <> [] -> b <> [] ->
  is_valid_text (a ++ b) = is_valid_text a && is_valid_text b.
Proof.
  intros Ha Hb. unfold is_valid_text.
  rewrite !all_chars_valid_forallb, existsb_app, forallb_app.
  destruct a as [|x a]; [congruence|]. destruct b as [|y b]; [congruence|].
  cbn [app truthy negb].
  destruct (existsb forbidden (x :: a)); cbn [orb andb]; [reflexivity|].
  destruct (existsb forbidden (y :: b)).
  - rewrite andb_false_r. reflexivity.
  - reflexivity.
Qed.

Lemma is_valid_text_app_witness :
  is_valid_text (lit "Hello " ++ lit "<b>") = false.
Proof.
  rewrite is_valid_text_app; [reflexivity|discriminate|discriminate].
Defined.

(** X9: a non-empty text of spaces, tabs, line feeds and carriage returns
    is accepted by [is_valid_text], and a request with that text is refused by
    [paraphrase] with 400, in any state and with any parameters. *)
Theorem ordinary_whitespace_valid_but_rejected (s : str) (n b : option Z)
    (x : option float) (st : Process) :
  s <> [] ->
  Forall (fun c => c = 32 \/ c = 9 \/ c = 10 \/ c = 13) s ->
  is_valid_text s = true
  /\ result_of (paraphrase (ParaphraseRequest_init s n b x)) st
     = inl {| status_code := 400; detail := lit "Text cannot be empty" |}.
Proof.
  intros Hne F. split.
  - apply is_valid_text_spec. split; [exact Hne|]. split.
    + refine (existsb_Forall_false _ _ _ _ F). intros c Hc.
      destruct (forbidden c) eqn:E; [|reflexivity].
      apply forbidden_spec in E. simpl in Hc. exfalso. lia.
    + refine (forallb_Forall_bool _ _ _ _ F). intros c Hc.
      apply valid_char_spec. rewrite isspace_spec. simpl in Hc. lia.
  - assert (S : strip s = []).
    { apply strip_whitespace.
      refine (forallb_Forall_bool _ _ _ _ F). intros c Hc.
      apply isspace_spec. simpl in Hc. lia. }
    unfold result_of, paraphrase. simpl text. rewrite S. reflexivity.
Qed.

Lemma ordinary_whitespace_valid_but_rejected_witness :
  is_valid_text (lit "   ") = true
  /\ result_of (paraphrase (request_of (lit "   ")))
       (loaded copy_model plain_tokenizer)
     = inl {| status_code := 400; detail := lit "Text cannot be empty" |}.
Proof.
  apply (ordinary_whitespace_valid_but_rejected (lit "   ") None None None);
    [discriminate|].
  repeat (constructor; [simpl; lia|]). constructor.
Defined.

End ValidatorMore.

(** ** The loader, the handler and the health endpoint together *)

Lemma device_after_sleep_0 (hub : Hub) (st : Process) :
  device (after_sleep_0 hub st) = device st.
Proof. unfold after_sleep_0, after_attempt_0. simpl. apply try_load_device. Qed.

Lemma device_after_sleep_1 (hub : Hub) (st : Process) :
  device (after_sleep_1 hub st) = device st.
Proof.
  unfold after_sleep_1, after_attempt_1. simpl.
  rewrite try_load_device. apply device_after_sleep_0.
Qed.

Section OneAttemptMore.

Variables (hub : Hub) (i : nat) (st : Process).

Local Abbreviation st' := (state_after (try_load hub i) st).

Ltac attempt_cases :=
  unfold attempt_outcome, state_after, result_of, try_load, bind,
    call, set_tokenizer, set_model, get_device, fails;
  destruct (T5Tokenizer_from_pretrained hub i) as [e1|t1]; simpl;
  [|destruct (T5ForConditionalGeneration_from_pretrained hub i) as [e2|m2];
    simpl;
    [|destruct (model_to m2 (device st)) as [e3|[]]; simpl;
      [|destruct (model_eval m2) as [e4|[]]; simpl]]].

Lemma try_load_cuda : cuda_is_available st' = cuda_is_available st.
Proof. attempt_cases; reflexivity. Qed.

(** Both handles are assigned as soon as both fetches succeed, before the
    model is moved to the device. *)
Lemma try_load_both_fetched (m : T5ForConditionalGeneration) (t : T5Tokenizer) :
  T5Tokenizer_from_pretrained hub i = inr t ->
  T5ForConditionalGeneration_from_pretrained hub i = inr m ->
  model st' = Some m /\ tokenizer st' = Some t.
Proof.
  attempt_cases; intros Ht Hm; try discriminate;
    injection Ht as <-; injection Hm as <-; split; reflexivity.
Qed.

Lemma try_load_fetch_failure :
  fails (T5Tokenizer_from_pretrained hub i)
  \/ fails (T5ForConditionalGeneration_from_pretrained hub i) ->
  model st' = model st /\ fails (attempt_outcome hub (device st) i).
Proof.
  attempt_cases; intros [[e H]|[e H]]; try discriminate H;
    (split; [reflexivity|eexists; reflexivity]).
Qed.

End OneAttemptMore.

Lemma load_model_globals_kept (hub : Hub) (st : Process) :
  device (state_after (load_model hub) st) = device st
  /\ cuda_is_available (state_after (load_model hub) st)
     = cuda_is_available st.
Proof.
  unfold state_after, load_model.
  destruct (is_None (model st) || is_None (tokenizer st));
    [|split; reflexivity].
  apply (load_attempts_preserves
           (fun s => device s = device st
                     /\ cuda_is_available s = cuda_is_available st)).
  - intros i s [D C]. rewrite try_load_device, try_load_cuda. split; assumption.
  - intros secs s H. exact H.
  - split; reflexivity.
Qed.

(** X10: once [load_model] has returned normally, calling it again, with any
    hub, fetches nothing and leaves the process as it is. *)
Theorem load_model_once (hub hub' : Hub) (st : Process) :
  result_of (load_model hub) st = inr tt ->
  load_model hub' (state_after (load_model hub) st)
  = (state_after (load_model hub) st, inr tt).
Proof.
  intros R.
  destruct (unset_or_set st) as [U|[Hm Ht]].
  - destruct (load_model_success_sets_handles hub st U R) as [Hm Ht].
    apply load_model_loaded; assumption.
  - unfold state_after. rewrite (load_model_loaded hub st Hm Ht). simpl.
    apply load_model_loaded; assumption.
Qed.

Lemma load_model_once_witness :
  load_model hub_down (state_after (load_model hub_flaky) (import_main false))
  = (state_after (load_model hub_flaky) (import_main false), inr tt).
Proof.
  apply load_model_once. reflexivity.
Defined.

(** X11: with a handle unset, the loader stops at the first attempt that
    succeeds: one attempt and no sleep if the first succeeds, two attempts and
    the sleep 5 if the second does, otherwise three attempts, the sleeps 5
    and 10 and the outcome of the third attempt as its result; it never
    sleeps more than 15 in total. *)
Theorem load_model_stops_at_first_success (hub : Hub) (st : Process) :
  model st = None \/ tokenizer st = None ->
  exists evs,
    trace (state_after (load_model hub) st) = trace st ++ evs
    /\ total_sleep evs <= 15
    /\ (attempt_outcome hub (device st) 0 = inr tt ->
        result_of (load_model hub) st = inr tt
        /\ attempts_made evs = 1%nat /\ sleeps evs = [])
    /\ (fails (attempt_outcome hub (device st) 0) ->
        attempt_outcome hub (device st) 1 = inr tt ->
        result_of (load_model hub) st = inr tt
        /\ attempts_made evs = 2%nat /\ sleeps evs = [5])
    /\ (fails (attempt_outcome hub (device st) 0) ->
        fails (attempt_outcome hub (device st) 1) ->
        result_of (load_model hub) st = attempt_outcome hub (device st) 2
        /\ attempts_made evs = 3%nat /\ sleeps evs = [5; 10]).
Proof.
  intros U. unfold state_after, result_of, total_sleep.
  rewrite (load_model_unfold hub st U), load_attempts_3.
  destruct (attempt_outcome hub (device st) 0) as [e0|[]] eqn:O0.
  - destruct (attempt_outcome hub (device st) 1) as [e1|[]] eqn:O1.
    + destruct (trace_after_attempt_2 hub st) as (evs & T & A & S).
      exists evs. simpl fst. simpl snd. rewrite A, S.
      split; [exact T|]. split; [simpl; lia|].
      split; [discriminate|]. split; [discriminate|].
      intros _ _. repeat split.
    + destruct (trace_after_attempt_1 hub st) as (evs & T & A & S).
      exists evs. simpl fst. simpl snd. rewrite A, S.
      split; [exact T|]. split; [simpl; lia|].
      split; [discriminate|]. split; [intros _ _; repeat split|].
      intros _ [e He]. discriminate He.
  - destruct (trace_after_attempt_0 hub st) as (evs & T & A & S).
    exists evs. simpl fst. simpl snd. rewrite A, S.
    split; [exact T|]. split; [simpl; lia|].
    split; [intros _; repeat split|].
    split; intros [e He]; discriminate He.
Qed.

Lemma load_model_stops_at_first_success_witness :
  result_of (load_model hub_without_weights) (import_main false)
  = inl connection_error
  /\ attempts_made
       (trace (state_after (load_model hub_without_weights) (import_main false)))
     = 3%nat.
Proof.
  destruct (load_model_stops_at_first_success hub_without_weights
              (import_main false)) as (evs & T & _ & _ & _ & H).
  - left. reflexivity.
  - destruct H as (R & A & _).
    + exists connection_error. reflexivity.
    + exists connection_error. reflexivity.
    + split; [exact R|]. rewrite T. exact A.
Defined.

Lemma health_model_loaded (st : Process) :
  exists h, result_of health st = inr h
            /\ Health.model_loaded h = negb (is_None (model st)).
Proof. eexists. split; reflexivity. Qed.

(** The handler's answer when both handles are set. *)
Lemma paraphrase_status_set (request : ParaphraseRequest) (st : Process) :
  strip (text request) <> [] ->
  model st <> None -> tokenizer st <> None ->
  http_status (result_of (paraphrase request) st) = 200
  \/ http_status (result_of (paraphrase request) st) = 500.
Proof.
  intros Hs Hm Ht.
  destruct (model st) as [m|] eqn:Em; [|congruence].
  destruct (tokenizer st) as [t|] eqn:Et; [|congruence].
  unfold result_of. rewrite (paraphrase_loaded m t request st Hs Em Et).
  destruct (generation m t request st) as [st1 [e|r]]; simpl; auto.
Qed.

(** X12: when the first two attempts fail and the third fetches both the
    tokenizer and the weights but the move to the device or the switch to
    evaluation mode raises, [load_model] raises with both handles set to what
    the third attempt fetched; [health] then reports the model as loaded and
    [paraphrase] does not answer 503. *)
Theorem load_model_raises_after_fetch (hub : Hub) (st : Process)
    (m : T5ForConditionalGeneration) (t : T5Tokenizer)
    (request : ParaphraseRequest) :
  model st = None \/ tokenizer st = None ->
  fails (attempt_outcome hub (device st) 0) ->
  fails (attempt_outcome hub (device st) 1) ->
  T5Tokenizer_from_pretrained hub 2 = inr t ->
  T5ForConditionalGeneration_from_pretrained hub 2 = inr m ->
  fails (model_to m (device st)) \/ fails (model_eval m) ->
  strip (text request) <> [] ->
  fails (result_of (load_model hub) st)
  /\ model (state_after (load_model hub) st) = Some m
  /\ tokenizer (state_after (load_model hub) st) = Some t
  /\ (exists h, result_of health (state_after (load_model hub) st) = inr h
                /\ Health.model_loaded h = true)
  /\ http_status (result_of (paraphrase request)
                    (state_after (load_model hub) st)) <> 503.
Proof.
  intros U [e0 O0] [e1 O1] Ft Fm Hf Hs.
  assert (O2 : fails (attempt_outcome hub (device st) 2)).
  { unfold attempt_outcome. rewrite Ft, Fm.
    destruct (model_to m (device st)) as [e|[]]; [exists e; reflexivity|].
    destruct Hf as [[e H]|[e H]]; [discriminate H|exists e; exact H]. }
  destruct O2 as [e2 O2].
  destruct (try_load_both_fetched hub 2 (after_sleep_1 hub st) m t Ft Fm)
    as [Hm Ht].
  fold (after_attempt_2 hub st) in Hm, Ht.
  unfold state_after, result_of.
  rewrite (load_model_unfold hub st U), load_attempts_3, O0, O1, O2.
  simpl fst. simpl snd.
  split; [exists e2; reflexivity|]. split; [exact Hm|]. split; [exact Ht|].
  split.
  - destruct (health_model_loaded (after_attempt_2 hub st)) as (h & R & L).
    exists h. split; [exact R|]. rewrite L, Hm. reflexivity.
  - intros H.
    assert (Hm' : model (after_attempt_2 hub st) <> None) by congruence.
    assert (Ht' : tokenizer (after_attempt_2 hub st) <> None) by congruence.
    destruct (paraphrase_status_set request _ Hs Hm' Ht') as [X|X];
      unfold result_of in X; congruence.
Qed.

Lemma load_model_raises_after_fetch_witness :
  result_of (load_model hub_unmovable) (import_main true) = inl out_of_memory
  /\ model (state_after (load_model hub_unmovable) (import_main true))
     = Some unmovable_model.
Proof.
  destruct (load_model_raises_after_fetch hub_unmovable (import_main true)
              unmovable_model plain_tokenizer (request_of (lit "Hi")))
    as (_ & M' & _).
  - left. reflexivity.
  - exists out_of_memory. reflexivity.
  - exists out_of_memory. reflexivity.
  - reflexivity.
  - reflexivity.
  - left. exists out_of_memory. reflexivity.
  - discriminate.
  - split; [reflexivity|exact M'].
Defined.

(** X13: starting with both handles unset, if in each of the 3 attempts the
    tokenizer fetch or the weights fetch fails, [load_model] raises, the model
    handle is still unset, [health] reports the model as not loaded and every
    request with a non-blank text is answered 503. *)
Theorem failed_fetches_then_unavailable (hub : Hub) (st : Process)
    (request : ParaphraseRequest) :
  model st = None ->
  tokenizer st = None ->
  (forall i, (i < 3)%nat ->
     fails (T5Tokenizer_from_pretrained hub i)
     \/ fails (T5ForConditionalGeneration_from_pretrained hub i)) ->
  strip (text request) <> [] ->
  fails (result_of (load_model hub) st)
  /\ model (state_after (load_model hub) st) = None
  /\ (exists h, result_of health (state_after (load_model hub) st) = inr h
                /\ Health.model_loaded h = false)
  /\ result_of (paraphrase request) (state_after (load_model hub) st)
     = inl {| status_code := 503; detail := lit "Model not loaded" |}.
Proof.
  intros Hm Ht F Hs.
  destruct (try_load_fetch_failure hub 0 st (F 0%nat ltac:(lia)))
    as [M0 [e0 O0]].
  destruct (try_load_fetch_failure hub 1 (after_sleep_0 hub st)
              (F 1%nat ltac:(lia))) as [M1 [e1 O1]].
  destruct (try_load_fetch_failure hub 2 (after_sleep_1 hub st)
              (F 2%nat ltac:(lia))) as [M2 [e2 O2]].
  rewrite device_after_sleep_0 in O1. rewrite device_after_sleep_1 in O2.
  assert (M : model (after_attempt_2 hub st) = None).
  { unfold after_attempt_2. rewrite M2. unfold after_sleep_1. simpl.
    unfold after_attempt_1. rewrite M1. unfold after_sleep_0. simpl.
    unfold after_attempt_0. rewrite M0. exact Hm. }
  assert (E : state_after (load_model hub) st = after_attempt_2 hub st
              /\ result_of (load_model hub) st = inl e2).
  { unfold state_after, result_of.
    rewrite (load_model_unfold hub st (or_introl Hm)), load_attempts_3,
      O0, O1, O2. split; reflexivity. }
  destruct E as [E R]. rewrite E, R.
  split; [exists e2; reflexivity|]. split; [exact M|]. split.
  - destruct (health_model_loaded (after_attempt_2 hub st)) as (h & Rh & L).
    exists h. split; [exact Rh|]. rewrite L, M. reflexivity.
  - unfold result_of.
    rewrite (paraphrase_unset request _ Hs (or_introl M)). reflexivity.
Qed.

Lemma failed_fetches_then_unavailable_witness :
  result_of (paraphrase (request_of (lit "Hello")))
    (state_after (load_model hub_without_weights) (import_main false))
  = inl {| status_code := 503; detail := lit "Model not loaded" |}.
Proof.
  apply (failed_fetches_then_unavailable hub_without_weights
           (import_main false) (request_of (lit "Hello"))).
  - reflexivity.
  - reflexivity.
  - intros i _. right. exists connection_error. reflexivity.
  - discriminate.
Defined.

(** X14: after [load_model] returned normally, [health] reports the model
    as loaded and a request with a non-blank text is answered 200 or 500,
    never 503. *)
Theorem loaded_then_served (hub : Hub) (st : Process)
    (request : ParaphraseRequest) :
  model st = None \/ tokenizer st = None ->
  result_of (load_model hub) st = inr tt ->
  strip (text request) <> [] ->
  (exists h, result_of health (state_after (load_model hub) st) = inr h
             /\ Health.model_loaded h = true)
  /\ (http_status (result_of (paraphrase request)
                     (state_after (load_model hub) st)) = 200
      \/ http_status (result_of (paraphrase request)
                        (state_after (load_model hub) st)) = 500).
Proof.
  intros U R Hs.
  destruct (load_model_success_sets_handles hub st U R) as [Hm Ht].
  split.
  - destruct (health_model_loaded (state_after (load_model hub) st))
      as (h & Rh & L).
    exists h. split; [exact Rh|]. rewrite L.
    destruct (model (state_after (load_model hub) st)); [reflexivity|congruence].
  - apply paraphrase_status_set; assumption.
Qed.

Lemma loaded_then_served_witness :
  http_status
    (result_of (paraphrase (request_of (lit "Hello")))
       (state_after (load_model hub_flaky) (import_main false))) = 200
  \/ http_status
       (result_of (paraphrase (request_of (lit "Hello")))
          (state_after (load_model hub_flaky) (import_main false))) = 500.
Proof.
  apply (loaded_then_served hub_flaky (import_main false)
           (request_of (lit "Hello"))).
  - left. reflexivity.
  - reflexivity.
  - discriminate.
Defined.

(** X15: after the startup load, whatever its outcome, [health] reports
    the model as not loaded exactly when a request with a non-blank text is
    answered 503. *)
Theorem health_predicts_availability (hub : Hub) (cuda : bool)
    (request : ParaphraseRequest) :
  strip (text request) <> [] ->
  exists h,
    result_of health (state_after (load_model hub) (import_main cuda)) = inr h
    /\ (Health.model_loaded h = false
        <-> http_status
              (result_of (paraphrase request)
                 (state_after (load_model hub) (import_main cuda))) = 503).
Proof.
  intros Hs.
  pose proof (load_model_pairing hub (import_main cuda)) as P.
  simpl in P. specialize (P (fun H => False_ind _ (H eq_refl))).
  destruct (health_model_loaded (state_after (load_model hub) (import_main cuda)))
    as (h & Rh & L).
  exists h. split; [exact Rh|]. rewrite L.
  destruct (model (state_after (load_model hub) (import_main cuda)))
    as [m|] eqn:Em.
  - assert (Ht : tokenizer (state_after (load_model hub) (import_main cuda))
                 <> None) by (apply P; discriminate).
    assert (Hm : model (state_after (load_model hub) (import_main cuda))
                 <> None) by congruence.
    simpl. split; [discriminate|]. intros H.
    destruct (paraphrase_status_set request _ Hs Hm Ht) as [X|X]; congruence.
  - simpl. split; [intros _|reflexivity].
    unfold result_of. rewrite (paraphrase_unset request _ Hs (or_introl Em)).
    reflexivity.
Qed.

Lemma health_predicts_availability_witness :
  exists h,
    result_of health (state_after (load_model hub_unmovable) (import_main true))
    = inr h
    /\ (Health.model_loaded h = false
        <-> http_status
              (result_of (paraphrase (request_of (lit "Hi")))
                 (state_after (load_model hub_unmovable) (import_main true)))
            = 503).
Proof.
  apply (health_predicts_availability hub_unmovable true
           (request_of (lit "Hi"))).
  discriminate.
Defined.

(** X16: the device string chosen at import (cuda if torch reports it
    available, else cpu) is still the one after the startup load, whatever
    its outcome; every successful response and the health report carry it. *)
Theorem device_fixed_at_import (hub : Hub) (cuda : bool) :
  device (state_after (load_model hub) (import_main cuda))
  = (if cuda then lit "cuda" else lit "cpu")
  /\ (forall request response,
        result_of (paraphrase request)
          (state_after (load_model hub) (import_main cuda)) = inr response ->
        ParaphraseResponse.device response
        = if cuda then lit "cuda" else lit "cpu")
  /\ (exists h,
        result_of health (state_after (load_model hub) (import_main cuda))
        = inr h
        /\ Health.device h = (if cuda then lit "cuda" else lit "cpu")
        /\ Health.cuda_available h = cuda).
Proof.
  destruct (load_model_globals_kept hub (import_main cuda)) as [D C].
  simpl in D, C.
  split; [exact D|]. split.
  - intros request response.
    set (st := state_after (load_model hub) (import_main cuda)) in *.
    unfold result_of, paraphrase.
    destruct (negb (truthy (strip (text request)))); [discriminate|].
    destruct (model st) as [m|]; [|discriminate].
    destruct (tokenizer st) as [t|]; [|destruct (model st); discriminate].
    destruct (generation_effect m t request st) as ((_ & _ & G & _) & _).
    unfold state_after in G. rewrite generation_steps in *.
    destruct (tokenizer_call t (text request) 256) as [e|enc]; [discriminate|].
    destruct (encoding_to t enc (device st)) as [e|ids]; [discriminate|].
    destruct (generate m ids _ _ _ 256 true) as [e|outputs]; [discriminate|].
    destruct (decode_all t outputs _) as [st4 [e|ps]]; simpl in *;
      [discriminate|].
    intros H. injection H as <-. simpl. congruence.
  - eexists. split; [reflexivity|]. simpl. split; assumption.
Qed.

Lemma attempts_made_decodes (l : list Tokens) : attempts_made (map Decode l) = 0%nat.
Proof. induction l; simpl; auto. Qed.

Lemma sleeps_decodes (l : list Tokens) : sleeps (map Decode l) = [].
Proof. induction l; simpl; auto. Qed.

Lemma generate_calls_decodes (l : list Tokens) : generate_calls (map Decode l) = [].
Proof. induction l; simpl; auto. Qed.

Lemma decoded_outputs_decodes (l : list Tokens) : decoded_outputs (map Decode l) = l.
Proof. induction l as [|o l IH]; simpl; [reflexivity|]. rewrite IH. reflexivity. Qed.

Section DecodingMore.

Variable t : T5Tokenizer.

(** The outputs are decoded in order, up to the first that fails. *)
Lemma decode_all_trace (outputs : list Tokens) (st : Process) :
  exists k,
    trace (state_after (decode_all t outputs) st)
    = trace st ++ map Decode (firstn k outputs)
    /\ (forall ps, result_of (decode_all t outputs) st = inr ps ->
          firstn k outputs = outputs).
Proof.
  revert st. induction outputs as [|o outputs IH]; intros st.
  - exists 0%nat. simpl. rewrite app_nil_r. split; reflexivity.
  - unfold state_after, result_of. rewrite decode_all_cons.
    destruct (decode t o) as [e|p].
    + exists 1%nat. simpl. split; [reflexivity|discriminate].
    + destruct (IH (log (Decode o) st)) as (k & T & F).
      unfold state_after, result_of in T, F.
      exists (S k).
      destruct (decode_all t outputs (log (Decode o) st)) as [st2 [e|ps]];
        simpl in *; rewrite T, <- app_assoc;
        (split; [reflexivity|]); [discriminate|].
      intros ps' _. rewrite (F ps eq_refl). reflexivity.
Qed.

Lemma decode_all_success (outputs : list Tokens) (ps : list str)
    (st : Process) :
  result_of (decode_all t outputs) st = inr ps
  <-> Forall2 (fun o p => decode t o = inr p) outputs ps.
Proof.
  revert ps st. induction outputs as [|o outputs IH]; intros ps st;
    unfold result_of.
  - simpl. split.
    + intros H. injection H as <-. constructor.
    + intros H. inversion H. reflexivity.
  - rewrite decode_all_cons. split.
    + destruct (decode t o) as [e|p] eqn:Ho; [discriminate|].
      specialize (IH (tl ps) (log (Decode o) st)). unfold result_of in IH.
      destruct (decode_all t outputs (log (Decode o) st)) as [st2 [e|qs]];
        simpl; [discriminate|].
      intros H. injection H as <-. constructor; [exact Ho|].
      simpl in IH. apply IH. reflexivity.
    + intros H. inversion H as [|o' p outputs' qs Ho F]; subst.
      rewrite Ho.
      apply (IH qs (log (Decode o) st)) in F. unfold result_of in F.
      destruct (decode_all t outputs (log (Decode o) st)) as [st2 [e|qs']];
        simpl in *; [discriminate F|]. congruence.
Qed.

End DecodingMore.

(** X17: with both handles set and a non-blank text, [paraphrase] returns a
    response exactly when the encoding, its move to the device, the
    generation and the decoding of every output succeed; the paraphrases are
    then the decodings of the outputs of [generate], one for each and in the
    same order, with the request text and the device string beside them. *)
Theorem paraphrase_success_iff (request : ParaphraseRequest) (st : Process)
    (m : T5ForConditionalGeneration) (t : T5Tokenizer)
    (response : ParaphraseResponse.t) :
  strip (text request) <> [] ->
  model st = Some m ->
  tokenizer st = Some t ->
  (result_of (paraphrase request) st = inr response
   <-> exists enc input_ids outputs,
         tokenizer_call t (text request) 256 = inr enc
         /\ encoding_to t enc (device st) = inr input_ids
         /\ generate m input_ids (num_return_sequences request)
              (num_beams request) (temperature request) 256 true
            = inr outputs
         /\ Forall2 (fun o p => decode t o = inr p) outputs
              (ParaphraseResponse.paraphrases response)
         /\ List.length (ParaphraseResponse.paraphrases response) = List.length outputs
         /\ ParaphraseResponse.original_text response = text request
         /\ ParaphraseResponse.device response = device st).
Proof.
  intros Hs Hm Ht. unfold result_of.
  rewrite (paraphrase_loaded m t request st Hs Hm Ht), generation_steps.
  destruct (tokenizer_call t (text request) 256) as [e|enc].
  { split; [discriminate|intros (? & ? & ? & H & _); discriminate H]. }
  destruct (encoding_to t enc (device st)) as [e|ids] eqn:Et.
  { split; [discriminate|].
    intros (enc' & ids' & o' & H1 & H2 & _). injection H1 as <-. congruence. }
  destruct (generate m ids _ _ _ 256 true) as [e|outputs] eqn:Eg.
  { split; [discriminate|].
    intros (enc' & ids' & o' & H1 & H2 & H3 & _). injection H1 as <-.
    rewrite Et in H2. injection H2 as <-. congruence. }
  set (st3 := log _ (log _ (log _ st))).
  pose proof (decode_all_success t outputs) as DS.
  destruct (decode_all_effect t outputs st3) as ((_ & _ & D & _) & _).
  unfold result_of, state_after in DS, D.
  split.
  - specialize (DS (ParaphraseResponse.paraphrases response) st3).
    destruct (decode_all t outputs st3) as [st4 [e|ps]]; simpl in *;
      [discriminate|].
    intros H. injection H as <-. simpl in *.
    exists enc, ids, outputs.
    assert (F : Forall2 (fun o p => decode t o = inr p) outputs ps)
      by (apply DS; reflexivity).
    repeat split; auto.
    symmetry. exact (Forall2_length F).
  - intros (enc' & ids' & o' & H1 & H2 & H3 & F & _ & Ho & Hd).
    injection H1 as <-. rewrite Et in H2. injection H2 as <-.
    rewrite Eg in H3. injection H3 as <-.
    apply (DS _ st3) in F.
    destruct (decode_all t outputs st3) as [st4 [e|ps]]; simpl in *;
      [discriminate F|].
    injection F as ->. destruct response as [ot pp dv]. simpl in *.
    subst ot dv. rewrite D. reflexivity.
Qed.

Lemma paraphrase_success_iff_witness :
  result_of
    (paraphrase (ParaphraseRequest_init (lit "Hi") (Some 2) None None))
    (loaded copy_model plain_tokenizer)
  = inr {| ParaphraseResponse.original_text := lit "Hi";
           ParaphraseResponse.paraphrases := [lit "Hi"; lit "Hi"];
           ParaphraseResponse.device := lit "cpu" |}.
Proof.
  apply (paraphrase_success_iff
           (ParaphraseRequest_init (lit "Hi") (Some 2) None None)
           (loaded copy_model plain_tokenizer) copy_model plain_tokenizer).
  - discriminate.
  - reflexivity.
  - reflexivity.
  - exists [lit "Hi"], [lit "Hi"], [lit "Hi"; lit "Hi"].
    repeat split; repeat constructor.
Defined.

(** X18: whatever a request does, the globals are the same afterwards and
    [health] reports what it reported before. *)
Theorem paraphrase_keeps_globals (request : ParaphraseRequest) (st : Process) :
  same_globals st (state_after (paraphrase request) st)
  /\ result_of health (state_after (paraphrase request) st)
     = result_of health st.
Proof.
  assert (G : same_globals st (state_after (paraphrase request) st)).
  { unfold state_after, paraphrase.
    destruct (negb (truthy (strip (text request))));
      [apply same_globals_refl|].
    destruct (model st) as [m|]; [|apply same_globals_refl].
    destruct (tokenizer st) as [t|]; [|apply same_globals_refl].
    destruct (generation_effect m t request st) as (G & _).
    unfold state_after in G.
    destruct (generation m t request st) as [st1 [e|r]]; exact G. }
  split; [exact G|].
  destruct G as (G1 & G2 & G3 & G4).
  unfold result_of, health. simpl. rewrite G1, G3, G4. reflexivity.
Qed.

(** X20: [paraphrase] answers 400 exactly when every character of the text
    is whitespace (the empty text included), 503 exactly when the text is not
    blank and a handle is unset, 500 exactly when the text is not blank, both
    handles are set and a call inside the [try] raises, and 200 exactly when
    it returns a response; it answers with no other status. *)
Theorem paraphrase_status_table (request : ParaphraseRequest) (st : Process) :
  (http_status (result_of (paraphrase request) st) = 400
   <-> forallb Py_UNICODE_ISSPACE (text request) = true)
  /\ (http_status (result_of (paraphrase request) st) = 503
      <-> forallb Py_UNICODE_ISSPACE (text request) = false
          /\ (model st = None \/ tokenizer st = None))
  /\ (http_status (result_of (paraphrase request) st) = 500
      <-> forallb Py_UNICODE_ISSPACE (text request) = false
          /\ exists m t e,
               model st = Some m /\ tokenizer st = Some t
               /\ generation_raises m t request (device st) e)
  /\ (http_status (result_of (paraphrase request) st) = 200
      <-> exists response, result_of (paraphrase request) st = inr response)
  /\ In (http_status (result_of (paraphrase request) st)) [200; 400; 500; 503].
Proof.
  destruct (forallb Py_UNICODE_ISSPACE (text request)) eqn:B.
  - assert (S : strip (text request) = []) by (apply strip_whitespace; exact B).
    unfold result_of, paraphrase. rewrite S. simpl.
    split; [tauto|]. split; [split; [discriminate|intros [H _]; discriminate H]|].
    split; [split; [discriminate|intros [H _]; discriminate H]|].
    split; [split; [discriminate|intros [r H]; discriminate H]|]. auto.
  - assert (S : strip (text request) <> []).
    { intros H. apply strip_whitespace in H. congruence. }
    destruct (unset_or_set st) as [U|[Hm Ht]].
    + unfold result_of. rewrite (paraphrase_unset request st S U). simpl.
      split; [split; discriminate|]. split; [tauto|].
      split.
      { split; [discriminate|].
        intros (_ & m & t & e & Hm & Ht & _).
        destruct U; congruence. }
      split; [split; [discriminate|intros [r H]; discriminate H]|]. auto.
    + destruct (model st) as [m|] eqn:Em; [|congruence].
      destruct (tokenizer st) as [t|] eqn:Et; [|congruence].
      pose proof (generation_raises_complete m t request st) as C.
      pose proof (generation_raises_result m t request st) as R.
      unfold result_of in *.
      rewrite (paraphrase_loaded m t request st S Em Et).
      destruct (generation m t request st) as [st1 [e|r]]; simpl in *.
      * split; [split; discriminate|].
        split; [split; [discriminate|intros [_ [H|H]]; discriminate H]|].
        split.
        { split; [intros _|reflexivity]. split; [reflexivity|].
          exists m, t, e. repeat split. apply C. reflexivity. }
        split; [split; [discriminate|intros [r H]; discriminate H]|]. auto.
      * split; [split; discriminate|].
        split; [split; [discriminate|intros [_ [H|H]]; discriminate H]|].
        split.
        { split; [discriminate|].
          intros (_ & m' & t' & e & Hm' & Ht' & G).
          injection Hm' as <-. injection Ht' as <-.
          specialize (R e G). discriminate R. }
        split; [split; [intros _; exists r; reflexivity|reflexivity]|]. auto.
Qed.

(** * The calls and what decides the answers *)

(** ** The loader: attempts and sleeps in order *)

Lemma try_load_events (hub : Hub) (i : nat) (st : Process) :
  trace (state_after (try_load hub i) st)
  = trace st ++ attempt_events hub (device st) i.
Proof.
  unfold attempt_events, state_after, try_load, bind, call, set_tokenizer,
    set_model, get_device.
  destruct (T5Tokenizer_from_pretrained hub i) as [e1|t1]; simpl;
    [reflexivity|].
  destruct (T5ForConditionalGeneration_from_pretrained hub i) as [e2|m2];
    simpl; [rewrite <- app_assoc; reflexivity|].
  destruct (model_to m2 (device st)) as [e3|[]]; simpl;
    [rewrite <- !app_assoc; reflexivity|].
  destruct (model_eval m2) as [e4|[]]; simpl; rewrite <- !app_assoc;
    reflexivity.
Qed.

(** An attempt is one tokenizer fetch and holds no sleep. *)
Lemma attempt_events_counts (hub : Hub) (d : str) (i : nat) :
  attempts_made (attempt_events hub d i) = 1%nat
  /\ sleeps (attempt_events hub d i) = [].
Proof.
  unfold attempt_events.
  destruct (T5Tokenizer_from_pretrained hub i) as [e1|t1]; simpl; auto.
  destruct (T5ForConditionalGeneration_from_pretrained hub i) as [e2|m2];
    simpl; auto.
  destruct (model_to m2 d) as [e3|[]]; simpl; auto.
Qed.

Section Schedule.

Variables (hub : Hub) (st : Process).

Local Abbreviation a0 := (attempt_events hub (device st) 0).
Local Abbreviation a1 := (attempt_events hub (device st) 1).
Local Abbreviation a2 := (attempt_events hub (device st) 2).

Lemma events_after_attempt_0 :
  trace (after_attempt_0 hub st) = trace st ++ a0.
Proof. apply try_load_events. Qed.

Lemma events_after_attempt_1 :
  trace (after_attempt_1 hub st) = trace st ++ a0 ++ Sleep 5 :: a1.
Proof.
  unfold after_attempt_1. rewrite try_load_events, device_after_sleep_0.
  unfold after_sleep_0. simpl trace. rewrite events_after_attempt_0.
  rewrite <- !app_assoc. reflexivity.
Qed.

Lemma events_after_attempt_2 :
  trace (after_attempt_2 hub st)
  = trace st ++ a0 ++ Sleep 5 :: a1 ++ Sleep 10 :: a2.
Proof.
  unfold after_attempt_2. rewrite try_load_events, device_after_sleep_1.
  unfold after_sleep_1. simpl trace. rewrite events_after_attempt_1.
  rewrite <- !app_assoc. simpl. reflexivity.
Qed.

Lemma schedule_counts_1 :
  attempts_made (a0 ++ Sleep 5 :: a1) = 2%nat
  /\ sleeps (a0 ++ Sleep 5 :: a1) = [5].
Proof.
  destruct (attempt_events_counts hub (device st) 0) as [A0 S0].
  destruct (attempt_events_counts hub (device st) 1) as [A1 S1].
  rewrite attempts_made_app, sleeps_app. cbn [attempts_made sleeps].
  rewrite A0, A1, S0, S1. split; reflexivity.
Qed.

Lemma schedule_counts_2 :
  attempts_made (a0 ++ Sleep 5 :: a1 ++ Sleep 10 :: a2) = 3%nat
  /\ sleeps (a0 ++ Sleep 5 :: a1 ++ Sleep 10 :: a2) = [5; 10].
Proof.
  destruct (attempt_events_counts hub (device st) 0) as [A0 S0].
  destruct (attempt_events_counts hub (device st) 1) as [A1 S1].
  destruct (attempt_events_counts hub (device st) 2) as [A2 S2].
  rewrite attempts_made_app, sleeps_app. cbn [attempts_made sleeps].
  rewrite attempts_made_app, sleeps_app. cbn [attempts_made sleeps].
  rewrite A0, A1, A2, S0, S1, S2. split; reflexivity.
Qed.

End Schedule.

(** C2: the loader makes at most 3 attempts and sleeps only between two
    attempts: with a handle unset, its calls are those of the first attempt;
    then, if that attempt failed, a sleep of 5 and the calls of the second
    attempt; then, if that one failed too, a sleep of 10 and the calls of the
    third attempt, and nothing after it. If the first two attempts fail and
    the third succeeds, the loader returns normally after the sleeps 5 and
    10, and the model and tokenizer handles are the ones fetched by the third
    attempt. With both handles set it makes no call at all. *)
Theorem load_model_retry_backoff (hub : Hub) (st : Process) :
  exists evs,
    trace (state_after (load_model hub) st) = trace st ++ evs
    /\ (attempts_made evs <= 3)%nat
    /\ sleeps evs = firstn (attempts_made evs - 1) [5; 10]
    /\ (model st <> None -> tokenizer st <> None -> evs = [])
    /\ (model st = None \/ tokenizer st = None ->
        (attempt_outcome hub (device st) 0 = inr tt ->
         evs = attempt_events hub (device st) 0
         /\ result_of (load_model hub) st = inr tt)
        /\ (fails (attempt_outcome hub (device st) 0) ->
            attempt_outcome hub (device st) 1 = inr tt ->
            evs = attempt_events hub (device st) 0
                  ++ Sleep 5 :: attempt_events hub (device st) 1
            /\ result_of (load_model hub) st = inr tt)
        /\ (fails (attempt_outcome hub (device st) 0) ->
            fails (attempt_outcome hub (device st) 1) ->
            evs = attempt_events hub (device st) 0
                  ++ Sleep 5 :: attempt_events hub (device st) 1
                  ++ Sleep 10 :: attempt_events hub (device st) 2
            /\ result_of (load_model hub) st
               = attempt_outcome hub (device st) 2)
        /\ (fails (attempt_outcome hub (device st) 0) ->
            fails (attempt_outcome hub (device st) 1) ->
            attempt_outcome hub (device st) 2 = inr tt ->
            result_of (load_model hub) st = inr tt
            /\ attempts_made evs = 3%nat
            /\ sleeps evs = [5; 10]
            /\ exists m t,
                 T5ForConditionalGeneration_from_pretrained hub 2 = inr m
                 /\ T5Tokenizer_from_pretrained hub 2 = inr t
                 /\ model (state_after (load_model hub) st) = Some m
                 /\ tokenizer (state_after (load_model hub) st) = Some t)).
Proof.
  unfold state_after, result_of.
  destruct (unset_or_set st) as [U|[Hm Ht]].
  - rewrite (load_model_unfold hub st U), load_attempts_3.
    destruct (attempt_outcome hub (device st) 0) as [e0|[]] eqn:O0.
    + destruct (attempt_outcome hub (device st) 1) as [e1|[]] eqn:O1.
      * destruct (schedule_counts_2 hub st) as [A S].
        eexists. simpl fst. simpl snd.
        split; [apply events_after_attempt_2|]. rewrite A, S.
        split; [lia|]. split; [reflexivity|].
        split; [intros Hm Ht; destruct U; contradiction|].
        intros _.
        split; [discriminate|]. split; [discriminate|].
        split; [intros _ _; split; reflexivity|].
        intros _ _ O2.
        split; [exact O2|]. split; [reflexivity|]. split; [reflexivity|].
        pose proof (try_load_success hub 2 (after_sleep_1 hub st)) as Hs.
        rewrite device_after_sleep_1 in Hs. exact (Hs O2).
      * destruct (schedule_counts_1 hub st) as [A S].
        eexists. simpl fst. simpl snd.
        split; [apply events_after_attempt_1|]. rewrite A, S.
        split; [lia|]. split; [reflexivity|].
        split; [intros Hm Ht; destruct U; contradiction|].
        intros _.
        split; [discriminate|].
        split; [intros _ _; split; reflexivity|].
        split; intros _ [e He]; discriminate He.
    + destruct (attempt_events_counts hub (device st) 0) as [A S].
      eexists. simpl fst. simpl snd.
      split; [apply events_after_attempt_0|]. rewrite A, S.
      split; [lia|]. split; [reflexivity|].
      split; [intros Hm Ht; destruct U; contradiction|].
      intros _.
      split; [intros _; split; reflexivity|].
      split; [intros [e He]; discriminate He|].
      split; intros [e He]; discriminate He.
  - rewrite (load_model_loaded hub st Hm Ht). exists []. simpl.
    rewrite app_nil_r.
    split; [reflexivity|]. split; [lia|]. split; [reflexivity|].
    split; [reflexivity|].
    intros [U|U]; contradiction.
Qed.

Lemma load_model_retry_backoff_witness :
  result_of (load_model hub_flaky) (import_main false) = inr tt
  /\ trace (state_after (load_model hub_flaky) (import_main false))
     = [FetchTokenizer 0; Sleep 5; FetchTokenizer 1; Sleep 10;
        FetchTokenizer 2; FetchModel 2; ModelTo (lit "cpu"); ModelEval]
  /\ model (state_after (load_model hub_flaky) (import_main false))
     = Some copy_model.
Proof.
  destruct (load_model_retry_backoff hub_flaky (import_main false))
    as (evs & T & _ & _ & _ & H).
  destruct (H (or_introl eq_refl)) as (_ & _ & E & S).
  assert (F0 : fails (attempt_outcome hub_flaky (device (import_main false)) 0))
    by (exists connection_error; reflexivity).
  assert (F1 : fails (attempt_outcome hub_flaky (device (import_main false)) 1))
    by (exists connection_error; reflexivity).
  destruct (E F0 F1) as [E' _].
  destruct (S F0 F1 eq_refl) as (R & _ & _ & m & t & Fm & _ & Hm & _).
  split; [exact R|]. split.
  - rewrite T, E'. reflexivity.
  - rewrite Hm. simpl in Fm. injection Fm as <-. reflexivity.
Defined.

(** ** The handler: which calls decide its answer *)

Lemma decode_all_ext (t t' : T5Tokenizer) (outputs : list Tokens)
    (s s' : Process) :
  (forall o, decode t' o = decode t o) ->
  trace s' = trace s ->
  result_of (decode_all t' outputs) s' = result_of (decode_all t outputs) s
  /\ trace (state_after (decode_all t' outputs) s')
     = trace (state_after (decode_all t outputs) s).
Proof.
  intros Hd. revert s s'.
  induction outputs as [|o outputs IH]; intros s s' T;
    unfold result_of, state_after.
  - simpl. split; [reflexivity|exact T].
  - rewrite !decode_all_cons, Hd.
    destruct (decode t o) as [e|p].
    + simpl. rewrite T. split; reflexivity.
    + assert (T1 : trace (log (Decode o) s') = trace (log (Decode o) s))
        by (simpl; rewrite T; reflexivity).
      destruct (IH _ _ T1) as [R T2]. unfold result_of, state_after in R, T2.
      destruct (decode_all t' outputs (log (Decode o) s')) as [s2' [e'|ps']];
        destruct (decode_all t outputs (log (Decode o) s)) as [s2 [e|ps]];
        simpl in *; try discriminate R;
        (split; [congruence|exact T2]).
Qed.

(** The [try] consults the tokenizer on the request text only, and the
    model on the request's generation settings only: two capabilities that
    agree there give the same outcome and make the same calls. *)
Lemma generation_ext (m m' : T5ForConditionalGeneration) (t t' : T5Tokenizer)
    (request : ParaphraseRequest) (st st' : Process) :
  device st' = device st ->
  trace st' = trace st ->
  tokenizer_call t' (text request) 256 = tokenizer_call t (text request) 256 ->
  (forall enc d, encoding_to t' enc d = encoding_to t enc d) ->
  (forall o, decode t' o = decode t o) ->
  (forall input_ids,
     generate m' input_ids (num_return_sequences request) (num_beams request)
       (temperature request) 256 true
     = generate m input_ids (num_return_sequences request) (num_beams request)
         (temperature request) 256 true) ->
  result_of (generation m' t' request) st'
  = result_of (generation m t request) st
  /\ trace (state_after (generation m' t' request) st')
     = trace (state_after (generation m t request) st).
Proof.
  intros D T Hc Ht Hd Hg. unfold result_of, state_after.
  rewrite !generation_steps, Hc, D.
  destruct (tokenizer_call t (text request) 256) as [e|enc].
  { simpl. rewrite T. split; reflexivity. }
  rewrite Ht.
  destruct (encoding_to t enc (device st)) as [e|ids].
  { simpl. rewrite T. split; reflexivity. }
  rewrite Hg.
  destruct (generate m ids _ _ _ 256 true) as [e|outputs].
  { simpl. rewrite T. split; reflexivity. }
  match goal with
  | |- context [decode_all t' outputs ?a] =>
      match goal with
      | |- context [decode_all t outputs ?b] =>
          assert (T3 : trace a = trace b) by (simpl; rewrite T; reflexivity);
          destruct (decode_all_ext t t' outputs b a Hd T3) as [R T4];
          destruct (decode_all_effect t' outputs a) as ((_ & _ & D' & _) & _);
          destruct (decode_all_effect t outputs b) as ((_ & _ & D0 & _) & _);
          unfold result_of, state_after in R, T4, D', D0;
          destruct (decode_all t' outputs a) as [s4' [e'|ps']];
          destruct (decode_all t outputs b) as [s4 [e|ps]]
      end
  end; simpl in *; try discriminate R;
    (split; [congruence|exact T4]).
Qed.

Lemma paraphrase_ext (m m' : T5ForConditionalGeneration) (t t' : T5Tokenizer)
    (request : ParaphraseRequest) (st st' : Process) :
  model st = Some m -> tokenizer st = Some t ->
  model st' = Some m' -> tokenizer st' = Some t' ->
  device st' = device st ->
  trace st' = trace st ->
  tokenizer_call t' (text request) 256 = tokenizer_call t (text request) 256 ->
  (forall enc d, encoding_to t' enc d = encoding_to t enc d) ->
  (forall o, decode t' o = decode t o) ->
  (forall input_ids,
     generate m' input_ids (num_return_sequences request) (num_beams request)
       (temperature request) 256 true
     = generate m input_ids (num_return_sequences request) (num_beams request)
         (temperature request) 256 true) ->
  result_of (paraphrase request) st' = result_of (paraphrase request) st
  /\ trace (state_after (paraphrase request) st')
     = trace (state_after (paraphrase request) st).
Proof.
  intros Hm Ht Hm' Ht' D T Hc He Hd Hg.
  unfold result_of, state_after, paraphrase.
  destruct (negb (truthy (strip (text request)))).
  { simpl. split; [reflexivity|exact T]. }
  rewrite Hm, Ht, Hm', Ht'.
  destruct (generation_ext m m' t t' request st st' D T Hc He Hd Hg) as [R T1].
  unfold result_of, state_after in R, T1.
  destruct (generation m' t' request st') as [s1' [e'|r']];
    destruct (generation m t request st) as [s1 [e|r]];
    simpl in *; try discriminate R; (split; [congruence|exact T1]).
Qed.




(** A request makes no load attempt, never sleeps and calls [generate] at
    most once. *)
Lemma paraphrase_call_counts (request : ParaphraseRequest) (st : Process) :
  exists evs,
    trace (state_after (paraphrase request) st) = trace st ++ evs
    /\ attempts_made evs = 0%nat
    /\ sleeps evs = []
    /\ (generate_calls evs = []
        \/ generate_calls evs
           = [Generate (num_return_sequences request) (num_beams request)
                (temperature request) 256 true])
    /\ (forall response,
          result_of (paraphrase request) st = inr response ->
          List.length (decoded_outputs evs)
          = List.length (ParaphraseResponse.paraphrases response)).
Proof.
  unfold state_after, result_of, paraphrase.
  destruct (negb (truthy (strip (text request)))).
  { exists []. simpl. rewrite app_nil_r. repeat split; auto. discriminate. }
  destruct (model st) as [m|];
    [|exists []; simpl; rewrite app_nil_r; repeat split; auto; discriminate].
  destruct (tokenizer st) as [t|];
    [|exists []; simpl; rewrite app_nil_r; repeat split; auto; discriminate].
  rewrite generation_steps.
  destruct (tokenizer_call t (text request) 256) as [e|enc].
  { eexists [_]. simpl. repeat split; auto. discriminate. }
  destruct (encoding_to t enc (device st)) as [e|ids].
  { eexists [_; _]. simpl. rewrite <- app_assoc.
    repeat split; auto. discriminate. }
  destruct (generate m ids _ _ _ 256 true) as [e|outputs].
  { eexists [_; _; _]. simpl. rewrite <- !app_assoc.
    repeat split; auto. discriminate. }
  set (st3 := log _ (log _ (log _ st))).
  destruct (decode_all_trace t outputs st3) as (k & T & F).
  pose proof (decode_all_success t outputs) as DS.
  unfold state_after, result_of in T, F, DS.
  specialize (fun ps => DS ps st3).
  destruct (decode_all t outputs st3) as [st4 [e|ps]]; simpl in *;
    (eexists ([_; _; _] ++ map Decode (firstn k outputs));
     rewrite T; subst st3; simpl; rewrite <- !app_assoc; simpl;
     rewrite attempts_made_decodes, sleeps_decodes, generate_calls_decodes,
       decoded_outputs_decodes;
     split; [reflexivity|]; split; [reflexivity|]; split; [reflexivity|];
     split; [right; reflexivity|]);
    [discriminate|].
  intros response H. injection H as <-. simpl.
  rewrite (F ps eq_refl).
  apply (Forall2_length (proj1 (DS ps) eq_refl)).
Qed.

(** X19: a request makes no load attempt and never sleeps; it calls
    [generate] at most once, with the num_return_sequences, num_beams and
    temperature of the request as they are, max_length 256 and sampling on:
    if [generate] raises at these settings the answer is the 500 with its
    message, and a model that generates alike at these settings, whatever it
    would do at any other, gives the same answer and the same calls. A
    successful response has as many paraphrases as outputs were decoded. *)
Theorem paraphrase_calls (request : ParaphraseRequest) (st : Process) :
  (exists evs,
     trace (state_after (paraphrase request) st) = trace st ++ evs
     /\ attempts_made evs = 0%nat
     /\ sleeps evs = []
     /\ (generate_calls evs = []
         \/ generate_calls evs
            = [Generate (num_return_sequences request) (num_beams request)
                 (temperature request) 256 true])
     /\ (forall response,
           result_of (paraphrase request) st = inr response ->
           List.length (decoded_outputs evs)
           = List.length (ParaphraseResponse.paraphrases response)))
  /\ (forall m t enc input_ids e,
        strip (text request) <> [] ->
        model st = Some m ->
        tokenizer st = Some t ->
        tokenizer_call t (text request) 256 = inr enc ->
        encoding_to t enc (device st) = inr input_ids ->
        generate m input_ids (num_return_sequences request)
          (num_beams request) (temperature request) 256 true = inl e ->
        result_of (paraphrase request) st
        = inl {| status_code := 500;
                 detail := lit "Error during paraphrasing: " ++ exc_str e |})
  /\ (forall m m' t st',
        model st = Some m ->
        tokenizer st = Some t ->
        model st' = Some m' ->
        tokenizer st' = Some t ->
        device st' = device st ->
        trace st' = trace st ->
        (forall input_ids,
           generate m' input_ids (num_return_sequences request)
             (num_beams request) (temperature request) 256 true
           = generate m input_ids (num_return_sequences request)
               (num_beams request) (temperature request) 256 true) ->
        result_of (paraphrase request) st' = result_of (paraphrase request) st
        /\ trace (state_after (paraphrase request) st')
           = trace (state_after (paraphrase request) st)).
Proof.
  split; [apply paraphrase_call_counts|]. split.
  - intros m t enc ids e Hs Hm Ht He Hto Hg. unfold result_of.
    rewrite (paraphrase_loaded m t request st Hs Hm Ht), generation_steps,
      He, Hto, Hg. reflexivity.
  - intros m m' t st' Hm Ht Hm' Ht' D T Hg.
    apply (paraphrase_ext m m' t t request st st'); auto.
Qed.

Lemma paraphrase_calls_witness :
  result_of (paraphrase (request_of (lit "Hi")))
    (loaded (tuned_model 5 1.0%float) plain_tokenizer)
  = inr {| ParaphraseResponse.original_text := lit "Hi";
           ParaphraseResponse.paraphrases := [lit "Hi"];
           ParaphraseResponse.device := lit "cpu" |}.
Proof.
  destruct (paraphrase_calls (request_of (lit "Hi"))
              (loaded copy_model plain_tokenizer)) as (_ & _ & X).
  destruct (X copy_model (tuned_model 5 1.0%float) plain_tokenizer
              (loaded (tuned_model 5 1.0%float) plain_tokenizer))
    as [R _]; [reflexivity..|].
  rewrite R. reflexivity.
Defined.

(** ** The readers after a load *)

(** A load in which every attempt fails while fetching raises and leaves
    the model handle as it was. *)
Lemma load_model_fetch_failures (hub : Hub) (st : Process) :
  model st = None \/ tokenizer st = None ->
  (forall i, (i < 3)%nat ->
     fails (T5Tokenizer_from_pretrained hub i)
     \/ fails (T5ForConditionalGeneration_from_pretrained hub i)) ->
  fails (result_of (load_model hub) st)
  /\ model (state_after (load_model hub) st) = model st.
Proof.
  intros U F.
  destruct (try_load_fetch_failure hub 0 st (F 0%nat ltac:(lia)))
    as [M0 [e0 O0]].
  destruct (try_load_fetch_failure hub 1 (after_sleep_0 hub st)
              (F 1%nat ltac:(lia))) as [M1 [e1 O1]].
  destruct (try_load_fetch_failure hub 2 (after_sleep_1 hub st)
              (F 2%nat ltac:(lia))) as [M2 [e2 O2]].
  rewrite device_after_sleep_0 in O1. rewrite device_after_sleep_1 in O2.
  unfold state_after, result_of.
  rewrite (load_model_unfold hub st U), load_attempts_3, O0, O1, O2.
  simpl fst. simpl snd. split; [exists e2; reflexivity|].
  unfold after_attempt_2. rewrite M2. unfold after_sleep_1. simpl.
  unfold after_attempt_1. rewrite M1. unfold after_sleep_0. simpl.
  unfold after_attempt_0. exact M0.
Qed.

(** C5, as the code has it: a request whose text does not trim to the empty
    string, arriving while the model handle or the tokenizer handle is unset,
    is refused with an HTTP 503 whose detail is Model not loaded; the handler
    returns at once, leaving the process as it was (it neither sleeps nor
    calls the capability). The handles are unset before the load, and the
    model handle is still unset after a load in which each of the 3 attempts
    failed in a fetch, so that the request is refused in the same way then. *)
Theorem paraphrase_model_not_loaded (request : ParaphraseRequest)
    (st : Process) :
  strip (text request) <> [] ->
  (model st = None \/ tokenizer st = None ->
   result_of (paraphrase request) st
   = inl {| status_code := 503; detail := lit "Model not loaded" |}
   /\ http_status (result_of (paraphrase request) st) = 503
   /\ state_after (paraphrase request) st = st)
  /\ (forall hub,
        model st = None ->
        tokenizer st = None ->
        (forall i, (i < 3)%nat ->
           fails (T5Tokenizer_from_pretrained hub i)
           \/ fails (T5ForConditionalGeneration_from_pretrained hub i)) ->
        fails (result_of (load_model hub) st)
        /\ result_of (paraphrase request) (state_after (load_model hub) st)
           = inl {| status_code := 503; detail := lit "Model not loaded" |}
        /\ state_after (paraphrase request) (state_after (load_model hub) st)
           = state_after (load_model hub) st).
Proof.
  intros Hs. split.
  - intros U. unfold result_of, state_after.
    rewrite (paraphrase_unset request st Hs U). repeat split.
  - intros hub Hm Ht F.
    destruct (load_model_fetch_failures hub st (or_introl Hm) F) as [R M].
    split; [exact R|]. rewrite Hm in M.
    pose proof (paraphrase_unset request _ Hs (or_introl M)) as P.
    unfold result_of, state_after in *. rewrite P. split; reflexivity.
Qed.

Lemma paraphrase_model_not_loaded_witness :
  http_status
    (result_of (paraphrase (request_of (lit "Hello world"))) (import_main true))
  = 503
  /\ state_after (paraphrase (request_of (lit "Hello world"))) (import_main true)
     = import_main true
  /\ result_of (paraphrase (request_of (lit "Hello world")))
       (state_after (load_model hub_without_weights) (import_main true))
     = inl {| status_code := 503; detail := lit "Model not loaded" |}.
Proof.
  destruct (paraphrase_model_not_loaded (request_of (lit "Hello world"))
              (import_main true)) as (A & B); [discriminate|].
  destruct (A (or_introl eq_refl)) as (_ & S & U).
  destruct (B hub_without_weights eq_refl eq_refl) as (_ & R & _).
  - intros i _. right. exists connection_error. reflexivity.
  - split; [exact S|]. split; [exact U|exact R].
Defined.

(** C5 as stated fails: when the weights are fetched and the move to the
    device raises in all 3 attempts, the load has failed, and a request with
    a text that is not blank is then served, not refused with 503. *)
Lemma request_served_after_failed_load :
  result_of (load_model hub_unmovable) (import_main true) = inl out_of_memory
  /\ strip (text (request_of (lit "Hi"))) <> []
  /\ result_of (paraphrase (request_of (lit "Hi")))
       (state_after (load_model hub_unmovable) (import_main true))
     = inr {| ParaphraseResponse.original_text := lit "Hi";
              ParaphraseResponse.paraphrases := [lit "Hi"];
              ParaphraseResponse.device := lit "cuda" |}
  /\ http_status
       (result_of (paraphrase (request_of (lit "Hi")))
          (state_after (load_model hub_unmovable) (import_main true)))
     <> 503.
Proof.
  split; [reflexivity|]. split; [discriminate|]. split; [reflexivity|].
  discriminate.
Qed.

(** C7, as the code has it: in every state of the process [health] returns,
    with HTTP 200, a body whose status is healthy, whose model_loaded is true
    exactly when the model handle is set, whose device is the device string
    chosen at import and whose cuda_available is what torch reports; it
    changes nothing. After a load that returned normally model_loaded is
    true; after a load from unset handles in which each of the 3 attempts
    failed in a fetch it is false, as it is before the load. *)
Theorem health_always_answers (st : Process) :
  (exists h,
     result_of health st = inr h
     /\ http_status (result_of health st) = 200
     /\ Health.status h = lit "healthy"
     /\ (Health.model_loaded h = true <-> model st <> None)
     /\ Health.device h = device st
     /\ Health.cuda_available h = cuda_is_available st
     /\ state_after health st = st)
  /\ (forall hub,
        model st = None \/ tokenizer st = None ->
        result_of (load_model hub) st = inr tt ->
        exists h,
          result_of health (state_after (load_model hub) st) = inr h
          /\ Health.model_loaded h = true)
  /\ (forall hub,
        model st = None ->
        tokenizer st = None ->
        (forall i, (i < 3)%nat ->
           fails (T5Tokenizer_from_pretrained hub i)
           \/ fails (T5ForConditionalGeneration_from_pretrained hub i)) ->
        fails (result_of (load_model hub) st)
        /\ exists h,
             result_of health (state_after (load_model hub) st) = inr h
             /\ Health.model_loaded h = false).
Proof.
  split; [|split].
  - eexists. split; [reflexivity|]. simpl.
    split; [reflexivity|]. split; [reflexivity|].
    split; [|repeat split].
    destruct (model st); simpl; split; congruence.
  - intros hub U R.
    destruct (load_model_success_sets_handles hub st U R) as [Hm _].
    destruct (health_model_loaded (state_after (load_model hub) st))
      as (h & Rh & L).
    exists h. split; [exact Rh|]. rewrite L.
    destruct (model (state_after (load_model hub) st));
      [reflexivity|congruence].
  - intros hub Hm Ht F.
    destruct (load_model_fetch_failures hub st (or_introl Hm) F) as [R M].
    split; [exact R|]. rewrite Hm in M.
    destruct (health_model_loaded (state_after (load_model hub) st))
      as (h & Rh & L).
    exists h. split; [exact Rh|]. rewrite L, M. reflexivity.
Qed.

Lemma health_always_answers_witness :
  (exists h,
     result_of health (state_after (load_model hub_flaky) (import_main true))
     = inr h
     /\ Health.model_loaded h = true)
  /\ (exists h,
        result_of health (state_after (load_model hub_down) (import_main true))
        = inr h
        /\ Health.model_loaded h = false).
Proof.
  destruct (health_always_answers (import_main true)) as (_ & A & B).
  split.
  - apply A; [left; reflexivity|reflexivity].
  - apply (B hub_down); [reflexivity|reflexivity|].
    intros i _. left. exists connection_error. reflexivity.
Defined.

(** C7 as stated fails: when the weights are fetched and the move to the
    device raises in all 3 attempts, the load has failed, and [health]
    reports the model as loaded. *)
Lemma health_reports_loaded_after_failed_load :
  result_of (load_model hub_unmovable) (import_main true) = inl out_of_memory
  /\ result_of health
       (state_after (load_model hub_unmovable) (import_main true))
     = inr {| Health.status := lit "healthy"; Health.model_loaded := true;
              Health.device := lit "cuda"; Health.cuda_available := true |}.
Proof. split; reflexivity. Qed.
